(** * sfeMovie: VideoStream.cpp

    A shallow embedding of [sfe::VideoStream]: the decode loop
    ([onGetData], [decodePacket]), the synchronisation gate
    ([updateTexture], [getSynchronizationGap]) and the lifecycle hooks
    ([willPlay], [didPlay], [didPause], [didStop]).

    The object is a record of its members; every member function is a
    function on that record.  A history of the calls made to the
    collaborators (packet queue, codec, texture) is kept as a ghost
    field, so that ownership of packets can be stated. *)

From Equations Require Import Equations.
From Stdlib Require Import ZArith List Bool Arith Lia.
Import ListNotations.

Local Open Scope Z_scope.

(** ** Machine integers *)

(** [int64_t] and [sf::Int64]: two's complement, 64 bits. *)
Definition wrap64 (z : Z) : Z := (z + 2 ^ 63) mod 2 ^ 64 - 2 ^ 63.

Definition int64_range (z : Z) : Prop := - 2 ^ 63 <= z < 2 ^ 63.

(** [sf::Int32]. *)
Definition wrap32 (z : Z) : Z := (z + 2 ^ 31) mod 2 ^ 32 - 2 ^ 31.

(** libavutil: [#define AV_NOPTS_VALUE ((int64_t)UINT64_C(0x8000000000000000))]. *)
Definition AV_NOPTS_VALUE : Z := - 2 ^ 63.

(** ** sf::Time

    A count of microseconds held in an [sf::Int64].  SFML 2 declares
    [Time milliseconds(Int32 amount)], returning
    [Time(static_cast<Int64>(amount) * 1000)]: an [sf::Int64] argument is
    narrowed to 32 bits at the call. *)
Module Time.
Definition t := Z.
Definition Zero : t := 0.
Definition milliseconds (amount : Z) : t := wrap32 amount * 1000.
Definition sub (left right : t) : t := wrap64 (left - right).
Definition ltb (left right : t) : bool := left <? right.
End Time.

(** ** libav data *)

(** [AVPacket], seen through an [AVPacketRef].  [pkt_ref] is the address
    of the packet object: two values with the same [pkt_ref] are the same
    object at different moments.  [data] and [size] are the cursor. *)
Record AVPacket := mkPacket {
  pkt_ref : nat;
  data : Z;
  size : Z
}.

Record AVRational := mkRational { num : Z; den : Z }.

Record AVStream := mkStream {
  start_time : Z;
  time_base : AVRational
}.

Record AVFrame := mkFrame {
  best_effort_timestamp : Z;
  frame_data : list Z
}.

(** What one call of [avcodec_decode_video2] leaves behind: its return
    value, [*got_picture_ptr], the picture it wrote and the codec
    context after the call. *)
Record decode_result (codec : Type) := mkResult {
  decodedLength : Z;
  gotPicture : Z;
  picture : AVFrame;
  codecCtx : codec
}.
Arguments mkResult {codec}.
Arguments decodedLength {codec}.
Arguments gotPicture {codec}.
Arguments picture {codec}.
Arguments codecCtx {codec}.

(** The codec of libavcodec, as this file uses it. *)
Class CodecPrimitive (codec : Type) := {
  avcodec_decode_video2 : codec -> AVPacket -> decode_result codec;
  avcodec_flush_buffers : codec -> codec
}.

(** ** Timer (external) *)
Module Timer.
Inductive Status := Stopped | Playing | Paused.
Record t := mk { status : Status; offset : Time.t }.
Definition getOffset (timer : t) : Time.t := offset timer.
End Timer.

(** ** History of calls to the collaborators *)
Inductive event :=
| EvPop (r : option AVPacket)
| EvDecode (p : AVPacket) (len got : Z)
| EvPresent (pixels : list Z)
| EvPrepend (p : AVPacket)
| EvFree (p : AVPacket)
| EvFlush.

(** ** Ownership of packets, read off a history *)

Definition same_object (r : nat) (p : AVPacket) : bool := Nat.eqb r (pkt_ref p).

(** Replays a stretch of history, [hand] being the address of the packet
    the decode loop owns at that moment, if any.  The replay fails
    ([None]) as soon as the discipline is broken:
    - a pop while a packet is still in hand (that packet would leak);
    - a prepend or a free of anything but the packet in hand (a second
      disposal, or the disposal of a packet never popped);
    - a decode of anything but the packet in hand.
    It ends with the packet left in hand. *)
Fixpoint replay (hand : option nat) (evs : list event) : option (option nat) :=
  match evs with
  | [] => Some hand
  | EvPop r :: evs =>
      match hand with
      | Some _ => None
      | None => replay (option_map pkt_ref r) evs
      end
  | EvPrepend p :: evs | EvFree p :: evs =>
      match hand with
      | Some r => if same_object r p then replay None evs else None
      | None => None
      end
  | EvDecode p _ _ :: evs =>
      match hand with
      | Some r => if same_object r p then replay hand evs else None
      | None => None
      end
  | _ :: evs => replay hand evs
  end.

(** Every pop is answered, before the next pop and before the end, by
    one free or one prepend of the packet popped, and by nothing else. *)
Definition each_pop_disposed_once (evs : list event) : Prop :=
  replay None evs = Some None.

(** Counting per packet object over a stretch of history. *)
Definition popped (r : nat) (evs : list event) : bool :=
  existsb (fun e => match e with
                    | EvPop (Some p) => same_object r p
                    | _ => false
                    end) evs.

Definition frees_of (r : nat) (evs : list event) : nat :=
  length (filter (fun e => match e with
                           | EvFree p => same_object r p
                           | _ => false
                           end) evs).

Definition requeues_of (r : nat) (evs : list event) : nat :=
  length (filter (fun e => match e with
                           | EvPrepend p => same_object r p
                           | _ => false
                           end) evs).

(** Every packet object popped in the stretch is, over the whole
    stretch, freed once and never requeued, or requeued once and never
    freed. *)
Definition each_packet_disposed_once (evs : list event) : Prop :=
  forall r, popped r evs = true ->
    (frees_of r evs = 1 /\ requeues_of r evs = 0)%nat \/
    (frees_of r evs = 0 /\ requeues_of r evs = 1)%nat.

Definition refs (q : list AVPacket) : list nat := map pkt_ref q.

(** Over a stretch of history that starts with the packets [before] in
    the hands of the object (in its queue or in its loop) and ends with
    the packets [after]: a packet is freed once, was there and is there
    no more; or it is not freed, and is there after exactly if it was
    before. *)
Definition conserved (before after : list nat) (evs : list event) : Prop :=
  forall r,
    (frees_of r evs = 1%nat /\ In r before /\ ~ In r after) \/
    (frees_of r evs = 0%nat /\ (In r before <-> In r after)).

(** A decode that succeeded and produced a picture. *)
Definition is_picture (e : event) : bool :=
  match e with
  | EvDecode _ len got => (0 <? len) && negb (got =? 0)
  | _ => false
  end.

(** The length reported by the last decode of a stretch, if any. *)
Fixpoint last_decode (evs : list event) : option Z :=
  match evs with
  | [] => None
  | e :: evs =>
      match last_decode evs, e with
      | Some len, _ => Some len
      | None, EvDecode _ len _ => Some len
      | None, _ => None
      end
  end.

(** ** The object *)
Record VideoStream (codec : Type) := mkVideoStream {
  m_stream : AVStream;
  m_codecCtx : codec;
  m_packetList : list AVPacket;
  m_timer : Timer.t;
  m_texture : list Z;
  m_rawVideoFrame : AVFrame;
  m_rgbaVideoBuffer : list Z;
  m_lastDecodedTimestamp : Time.t;
  history : list event
}.
Arguments mkVideoStream {codec}.
Arguments m_stream {codec}.
Arguments m_codecCtx {codec}.
Arguments m_packetList {codec}.
Arguments m_timer {codec}.
Arguments m_texture {codec}.
Arguments m_rawVideoFrame {codec}.
Arguments m_rgbaVideoBuffer {codec}.
Arguments m_lastDecodedTimestamp {codec}.
Arguments history {codec}.

Section Members.

Context {codec : Type} `{CodecPrimitive codec}.

(** [sws_scale] through the context built once by [initRescaler]. *)
Variable sws_scale : AVFrame -> list Z.

(** [(sf::Int64)(x * av_q2d(tb))]: the product of an [int64_t] and a
    [double], converted back to an integer. *)
Variable av_q2d_scale : AVRational -> Z -> Z.

Local Abbreviation VS := (VideoStream codec) (only parsing).

Definition set_codecCtx (c : codec) (st : VS) : VS :=
  mkVideoStream (m_stream st) c (m_packetList st) (m_timer st) (m_texture st)
    (m_rawVideoFrame st) (m_rgbaVideoBuffer st) (m_lastDecodedTimestamp st)
    (history st).

Definition set_packetList (q : list AVPacket) (st : VS) : VS :=
  mkVideoStream (m_stream st) (m_codecCtx st) q (m_timer st) (m_texture st)
    (m_rawVideoFrame st) (m_rgbaVideoBuffer st) (m_lastDecodedTimestamp st)
    (history st).

Definition set_timer (tm : Timer.t) (st : VS) : VS :=
  mkVideoStream (m_stream st) (m_codecCtx st) (m_packetList st) tm
    (m_texture st) (m_rawVideoFrame st) (m_rgbaVideoBuffer st)
    (m_lastDecodedTimestamp st) (history st).

Definition set_texture (px : list Z) (st : VS) : VS :=
  mkVideoStream (m_stream st) (m_codecCtx st) (m_packetList st) (m_timer st)
    px (m_rawVideoFrame st) (m_rgbaVideoBuffer st)
    (m_lastDecodedTimestamp st) (history st).

Definition set_rawVideoFrame (f : AVFrame) (st : VS) : VS :=
  mkVideoStream (m_stream st) (m_codecCtx st) (m_packetList st) (m_timer st)
    (m_texture st) f (m_rgbaVideoBuffer st) (m_lastDecodedTimestamp st)
    (history st).

Definition set_rgbaVideoBuffer (px : list Z) (st : VS) : VS :=
  mkVideoStream (m_stream st) (m_codecCtx st) (m_packetList st) (m_timer st)
    (m_texture st) (m_rawVideoFrame st) px (m_lastDecodedTimestamp st)
    (history st).

Definition set_lastDecodedTimestamp (ts : Time.t) (st : VS) : VS :=
  mkVideoStream (m_stream st) (m_codecCtx st) (m_packetList st) (m_timer st)
    (m_texture st) (m_rawVideoFrame st) (m_rgbaVideoBuffer st) ts
    (history st).

Definition emit (e : event) (st : VS) : VS :=
  mkVideoStream (m_stream st) (m_codecCtx st) (m_packetList st) (m_timer st)
    (m_texture st) (m_rawVideoFrame st) (m_rgbaVideoBuffer st)
    (m_lastDecodedTimestamp st) (history st ++ [e]).

(** The events that [st'] has and [st] had not yet. *)
Definition events_since (st st' : VS) : list event :=
  skipn (length (history st)) (history st').

(** Between [st] and [st'] a frame was attempted: [onGetData] was
    entered, which begins with the pop of line 103. *)
Definition attempts (st st' : VS) : Prop :=
  exists r evs, history st' = history st ++ EvPop r :: evs.

(** ** Packet source (base class [Stream]) *)

(** Modelled from the spec: [Stream::popEncodedData] is not part of
    VideoStream.cpp.  Section 6: [pop() -> EncodedPacket|empty];
    section 5: pop is destructive (removes and transfers ownership). *)
Definition popEncodedData (st : VS) : option AVPacket * VS :=
  match m_packetList st with
  | [] => (None, emit (EvPop None) st)
  | p :: q => (Some p, emit (EvPop (Some p)) (set_packetList q st))
  end.

(** Modelled from the spec: [Stream::prependEncodedData] is not part of
    VideoStream.cpp.  Section 6: [prepend(packet)] (push back to head);
    section 5: prepend preserves next-pop ordering exactly. *)
Definition prependEncodedData (packet : AVPacket) (st : VS) : VS :=
  emit (EvPrepend packet) (set_packetList (packet :: m_packetList st) st).

(** [av_free_packet(packet); av_free(packet);] *)
Definition free_packet (packet : AVPacket) (st : VS) : VS :=
  emit (EvFree packet) st.

(** ** Member functions *)

(** [getSynchronizationGap]: [m_lastDecodedTimestamp - m_timer.getOffset()]. *)
Definition getSynchronizationGap (st : VS) : Time.t :=
  Time.sub (m_lastDecodedTimestamp st) (Timer.getOffset (m_timer st)).

(** The out-parameters and the return value of [decodePacket], together
    with the packet as the call leaves it. *)
Record decoded := mkDecoded {
  ret : bool;
  gotFrame : bool;
  needsMoreDecoding : bool;
  packet_after : AVPacket
}.

(** [packet->data += decodedLength; packet->size -= decodedLength;]
    reached only with [0 < decodedLength < packet->size], where the
    [int] subtraction cannot wrap. *)
Definition advance (packet : AVPacket) (len : Z) : AVPacket :=
  mkPacket (pkt_ref packet) (data packet + len) (size packet - len).

(** Lines 155-158 of [decodePacket]. *)
Definition frame_timestamp (stream : AVStream) (outputFrame : AVFrame) : Time.t :=
  let timestamp := best_effort_timestamp outputFrame in
  let startTime :=
    if negb (start_time stream =? AV_NOPTS_VALUE) then start_time stream else 0 in
  let ms := av_q2d_scale (time_base stream)
              (wrap64 (1000 * wrap64 (timestamp - startTime))) in
  Time.milliseconds ms.

(** [decodePacket(packet, outputFrame, gotFrame, needsMoreDecoding)];
    [outputFrame] is [m_rawVideoFrame] at the one place it is called. *)
Definition decodePacket (packet : AVPacket) (st : VS) : decoded * VS :=
  let r := avcodec_decode_video2 (m_codecCtx st) packet in
  let st := emit (EvDecode packet (decodedLength r) (gotPicture r))
              (set_rawVideoFrame (picture r) (set_codecCtx (codecCtx r) st)) in
  let gotFrame := negb (gotPicture r =? 0) in
  if 0 <? decodedLength r then
    let '(needsMoreDecoding, packet) :=
      if decodedLength r <? size packet
      then (true, advance packet (decodedLength r))
      else (false, packet) in
    let st :=
      if gotFrame
      then set_lastDecodedTimestamp
             (frame_timestamp (m_stream st) (m_rawVideoFrame st)) st
      else st in
    (mkDecoded true gotFrame needsMoreDecoding packet, st)
  else
    (mkDecoded false gotFrame false packet, st).

(** [rescale(m_rawVideoFrame, m_rgbaVideoBuffer, m_rgbaVideoLinesize);
    texture.update(m_rgbaVideoBuffer[0]);] with [texture] bound to
    [m_texture] by both callers. *)
Definition present (st : VS) : VS :=
  let st := set_rgbaVideoBuffer (sws_scale (m_rawVideoFrame st)) st in
  emit (EvPresent (m_rgbaVideoBuffer st)) (set_texture (m_rgbaVideoBuffer st) st).

(** Lines 108-123 of [onGetData]: decode the packet in hand, present the
    picture if there is one, then requeue or free the packet. *)
Definition decode_and_dispose (packet : AVPacket) (st : VS) : decoded * VS :=
  let '(d, st) := decodePacket packet st in
  let st := if gotFrame d then present st else st in
  let st :=
    if needsMoreDecoding d
    then prependEncodedData (packet_after d) st
    else free_packet (packet_after d) st in
  (d, st).

(** The variables of the [while] loop of [onGetData]. *)
Record loop_state := mkLoop {
  l_packet : option AVPacket;
  l_gotFrame : bool;
  l_goOn : bool;
  l_self : VS
}.

(** [!gotFrame && packet && goOn] *)
Definition loop_cond (l : loop_state) : bool :=
  negb (l_gotFrame l) && (if l_packet l is Some _ then true else false) && l_goOn l.

(** One turn of the loop, entered with [packet] in hand. *)
Definition loop_body (packet : AVPacket) (st : VS) : loop_state :=
  let '(d, st) := decode_and_dispose packet st in
  if negb (gotFrame d) && ret d then
    let '(next, st) := popEncodedData st in
    mkLoop next (gotFrame d) (ret d) st
  else
    mkLoop (Some (packet_after d)) (gotFrame d) (ret d) st.

(** Termination measure of the loop: the bytes still to be submitted,
    counting one more per packet. *)
Definition weight (packet : AVPacket) : nat := S (Z.to_nat (size packet)).

Definition queue_weight (q : list AVPacket) : nat := list_sum (map weight q).

Definition loop_measure (l : loop_state) : nat :=
  if loop_cond l then
    match l_packet l with
    | Some p => weight p + queue_weight (m_packetList (l_self l))
    | None => 0
    end
  else 0%nat.

Lemma loop_body_decreases (p : AVPacket) (st : VS) :
  (loop_measure (loop_body p st) < weight p + queue_weight (m_packetList st))%nat.
Proof.
  unfold loop_body, decode_and_dispose, decodePacket.
  destruct (avcodec_decode_video2 (m_codecCtx st) p) as [len got pic ctx]; cbn.
  destruct (0 <? len) eqn:Hpos; destruct (got =? 0) eqn:Hgot;
    destruct (len <? size p) eqn:Hlt; cbn;
    try (unfold loop_measure, loop_cond, weight; cbn; lia).
  - unfold loop_measure, loop_cond, queue_weight, weight, list_sum; cbn.
    apply Z.ltb_lt in Hpos, Hlt. lia.
  - unfold popEncodedData; cbn.
    destruct (m_packetList st) as [|a q];
      unfold loop_measure, loop_cond, queue_weight, weight, list_sum; cbn; lia.
Qed.

(** The [while] loop of [onGetData]; the first clause is the loop
    condition [!gotFrame && packet && goOn]. *)
Equations? onGetData_loop (l : loop_state) : loop_state
  by wf (loop_measure l) lt :=
onGetData_loop (mkLoop (Some p) false true st) :=
  onGetData_loop (loop_body p st);
onGetData_loop l := l.
Proof.
  apply loop_body_decreases.
Qed.

(** [onGetData(texture)], with [texture] the member [m_texture]. *)
Definition onGetData (st : VS) : bool * VS :=
  let '(packet, st) := popEncodedData st in
  let l := onGetData_loop (mkLoop packet false true st) in
  (l_goOn l, l_self l).

(** The loop variables as line 107 first meets them. *)
Definition onGetData_start (st : VS) : loop_state :=
  let '(packet, st) := popEncodedData st in mkLoop packet false true st.

(** [reaches l l']: the loop entered at [l] stands at its head in [l']
    some turns later. *)
Inductive reaches : loop_state -> loop_state -> Prop :=
| reaches_here (l : loop_state) : reaches l l
| reaches_turn (p : AVPacket) (st : VS) (l : loop_state) :
    reaches (loop_body p st) l ->
    reaches (mkLoop (Some p) false true st) l.

Definition updateTexture (st : VS) : VS :=
  if Time.ltb (getSynchronizationGap st) Time.Zero
  then snd (onGetData st)
  else st.

Definition preload (st : VS) : VS := snd (onGetData st).

Definition willPlay (timer : Timer.t) (st : VS) : VS := preload st.

Definition didPlay (timer : Timer.t) (previousStatus : Timer.Status) (st : VS) : VS := st.

Definition didPause (timer : Timer.t) (previousStatus : Timer.Status) (st : VS) : VS := st.

Definition didStop (timer : Timer.t) (previousStatus : Timer.Status) (st : VS) : VS :=
  emit EvFlush (set_codecCtx (avcodec_flush_buffers (m_codecCtx st)) st).

(** What happens to the object between two stops: calls of its members
    and, from outside, changes of the timer it refers to. *)
Inductive call :=
| CallUpdateTexture
| CallPreload
| CallWillPlay (timer : Timer.t)
| CallDidPlay (timer : Timer.t) (previousStatus : Timer.Status)
| CallDidPause (timer : Timer.t) (previousStatus : Timer.Status)
| TimerChanges (timer : Timer.t).

Definition run_call (st : VS) (c : call) : VS :=
  match c with
  | CallUpdateTexture => updateTexture st
  | CallPreload => preload st
  | CallWillPlay timer => willPlay timer st
  | CallDidPlay timer previousStatus => didPlay timer previousStatus st
  | CallDidPause timer previousStatus => didPause timer previousStatus st
  | TimerChanges timer => set_timer timer st
  end.

Definition run (calls : list call) (st : VS) : VS := fold_left run_call calls st.

(** The codec forgets on a flush what the last decode gave it. *)
Definition flush_discards : Prop :=
  forall (c : codec) (p : AVPacket),
    avcodec_flush_buffers (codecCtx (avcodec_decode_video2 c p)) =
    avcodec_flush_buffers c.

(** ** Events and ownership of one turn of the loop *)

(** The events of lines 108-123 for a packet [p] in state [st]. *)
Definition dispose_events (p : AVPacket) (st : VS) : list event :=
  let r := avcodec_decode_video2 (m_codecCtx st) p in
  let d := fst (decodePacket p st) in
  EvDecode p (decodedLength r) (gotPicture r)
  :: (if gotFrame d then [EvPresent (sws_scale (picture r))] else [])
  ++ [if needsMoreDecoding d
      then EvPrepend (packet_after d)
      else EvFree (packet_after d)].

(** The events of one turn: those of lines 108-123, then the pop of
    line 127 when the loop goes on. *)
Definition turn_events (p : AVPacket) (st : VS) : list event :=
  let l := loop_body p st in
  dispose_events p st
  ++ (if negb (l_gotFrame l) && l_goOn l then [EvPop (l_packet l)] else []).

(** The packet the loop owns when it stands at its head. *)
Definition in_hand (l : loop_state) : option nat :=
  if loop_cond l then option_map pkt_ref (l_packet l) else None.

(** The packets the object answers for when the loop stands at its
    head: the one in hand and those of the queue. *)
Definition held (l : loop_state) : list nat :=
  match in_hand l with
  | Some r => [r]
  | None => []
  end ++ refs (m_packetList (l_self l)).

(** Case analysis on the outcome of the primitive and on the tests that
    [decodePacket] makes on it. *)
Ltac decode_cases p st :=
  unfold loop_body, decode_and_dispose, decodePacket;
  destruct (avcodec_decode_video2 (m_codecCtx st) p) as [len got pic ctx] eqn:Hprim;
  cbn [decodedLength gotPicture picture codecCtx];
  destruct (0 <? len) eqn:Hpos;
  destruct (got =? 0) eqn:Hgot;
  destruct (len <? size p) eqn:Hlt;
  cbn.

(** ** The loop as a [while] rule *)

Lemma onGetData_loop_exit (l : loop_state) :
  loop_cond l = false -> onGetData_loop l = l.
Proof.
  destruct l as [[p|] [|] [|] st]; cbn; intros Hc;
    try discriminate; now simp onGetData_loop.
Qed.

Lemma onGetData_loop_step (p : AVPacket) (st : VS) :
  onGetData_loop (mkLoop (Some p) false true st) = onGetData_loop (loop_body p st).
Proof. now simp onGetData_loop. Qed.

(** Induction along the turns of the loop. *)
Lemma onGetData_loop_rule (P : loop_state -> loop_state -> Prop) :
  (forall l, loop_cond l = false -> P l l) ->
  (forall p st l', P (loop_body p st) l' ->
                   P (mkLoop (Some p) false true st) l') ->
  forall l, P l (onGetData_loop l).
Proof.
  intros Hexit Hstep l.
  funelim (onGetData_loop l);
    try (apply Hexit; unfold loop_cond; cbn; now rewrite ?andb_false_r).
  apply Hstep.
  match goal with IH : forall Q, _ -> _ -> Q _ _ |- _ => now apply IH end.
Qed.

(** The loop is left with its condition false: the call returns. *)
Lemma onGetData_loop_returns (l : loop_state) :
  loop_cond (onGetData_loop l) = false.
Proof.
  apply (onGetData_loop_rule (fun _ l' => loop_cond l' = false)); auto.
Qed.

Lemma onGetData_unfold (st : VS) :
  onGetData st =
    (l_goOn (onGetData_loop (onGetData_start st)),
     l_self (onGetData_loop (onGetData_start st))).
Proof.
  unfold onGetData, onGetData_start. destruct (popEncodedData st). reflexivity.
Qed.

Lemma reaches_loop (l0 l : loop_state) :
  reaches l0 l -> onGetData_loop l0 = onGetData_loop l.
Proof.
  induction 1 as [|p st l _ IH]; [reflexivity|].
  rewrite onGetData_loop_step. exact IH.
Qed.

(** ** What one turn of the loop does *)

Lemma decode_and_dispose_history (p : AVPacket) (st : VS) :
  history (snd (decode_and_dispose p st)) = history st ++ dispose_events p st.
Proof.
  unfold dispose_events.
  decode_cases p st; rewrite <- ?app_assoc; reflexivity.
Qed.

Lemma decode_and_dispose_fst (p : AVPacket) (st : VS) :
  fst (decode_and_dispose p st) = fst (decodePacket p st).
Proof.
  unfold decode_and_dispose. destruct (decodePacket p st). reflexivity.
Qed.

Lemma popEncodedData_history (st : VS) :
  history (snd (popEncodedData st)) = history st ++ [EvPop (fst (popEncodedData st))].
Proof.
  unfold popEncodedData. destruct (m_packetList st); reflexivity.
Qed.

Lemma loop_body_flags (p : AVPacket) (st : VS) :
  l_gotFrame (loop_body p st) = gotFrame (fst (decodePacket p st)) /\
  l_goOn (loop_body p st) = ret (fst (decodePacket p st)).
Proof.
  unfold loop_body. rewrite <- decode_and_dispose_fst.
  destruct (decode_and_dispose p st) as [d st1]; cbn.
  destruct (negb (gotFrame d) && ret d).
  - destruct (popEncodedData st1); auto.
  - auto.
Qed.

Lemma loop_body_history (p : AVPacket) (st : VS) :
  history (l_self (loop_body p st)) = history st ++ turn_events p st.
Proof.
  unfold turn_events. rewrite app_assoc, <- decode_and_dispose_history.
  unfold loop_body.
  destruct (decode_and_dispose p st) as [d st1]; cbn [snd].
  destruct (negb (gotFrame d) && ret d) eqn:Hc.
  - pose proof (popEncodedData_history st1) as Hp.
    destruct (popEncodedData st1) as [next st2]; cbn in *.
    rewrite Hc. exact Hp.
  - cbn. rewrite Hc, app_nil_r. reflexivity.
Qed.

(** Every call of the loop only adds to the history. *)
Lemma onGetData_loop_history (l : loop_state) :
  exists evs, history (l_self (onGetData_loop l)) = history (l_self l) ++ evs.
Proof.
  apply (onGetData_loop_rule
           (fun l l' => exists evs, history (l_self l') = history (l_self l) ++ evs)).
  - intros l0 _. exists []. now rewrite app_nil_r.
  - intros p st l' [evs Hevs]. cbn.
    rewrite loop_body_history in Hevs.
    exists (turn_events p st ++ evs). now rewrite app_assoc.
Qed.

(** ** Ownership along the loop *)

Lemma events_since_app (st st' : VS) (evs : list event) :
  history st' = history st ++ evs -> events_since st st' = evs.
Proof.
  unfold events_since. intros ->.
  rewrite skipn_app, skipn_all, Nat.sub_diag. reflexivity.
Qed.

Lemma events_since_refl (st : VS) : events_since st st = [].
Proof. apply events_since_app. now rewrite app_nil_r. Qed.

Lemma replay_app (hand : option nat) (a b : list event) :
  replay hand (a ++ b) =
  match replay hand a with
  | Some hand' => replay hand' b
  | None => None
  end.
Proof.
  revert hand. induction a as [|e a IH]; intros hand; cbn; [reflexivity|].
  destruct e as [r|p len got|px|p|p|]; destruct hand as [h|]; cbn; auto;
    destruct (same_object h p); auto.
Qed.

Lemma turn_replay (p : AVPacket) (st : VS) :
  replay (Some (pkt_ref p)) (turn_events p st) = Some (in_hand (loop_body p st)).
Proof.
  unfold turn_events, dispose_events, in_hand, loop_cond.
  decode_cases p st; unfold same_object; cbn; rewrite ?Nat.eqb_refl;
    try reflexivity.
  all: unfold popEncodedData; cbn; destruct (m_packetList st); cbn;
    unfold same_object; cbn; rewrite ?Nat.eqb_refl; reflexivity.
Qed.

Lemma onGetData_loop_ownership (l : loop_state) :
  exists evs,
    history (l_self (onGetData_loop l)) = history (l_self l) ++ evs /\
    replay (in_hand l) evs = Some None.
Proof.
  apply (onGetData_loop_rule
           (fun l l' => exists evs,
                history (l_self l') = history (l_self l) ++ evs /\
                replay (in_hand l) evs = Some None)).
  - intros l0 Hc. exists []. unfold in_hand. rewrite Hc, app_nil_r. auto.
  - intros p st l' (evs & Hh & Hr). cbn [l_self].
    exists (turn_events p st ++ evs). split.
    + rewrite Hh, loop_body_history, app_assoc. reflexivity.
    + change (in_hand (mkLoop (Some p) false true st)) with (Some (pkt_ref p)).
      rewrite replay_app, turn_replay. exact Hr.
Qed.

Lemma onGetData_history (st : VS) :
  exists evs,
    history (snd (onGetData st)) =
      history st ++ EvPop (fst (popEncodedData st)) :: evs /\
    replay (option_map pkt_ref (fst (popEncodedData st))) evs = Some None.
Proof.
  unfold onGetData.
  pose proof (popEncodedData_history st) as Hp.
  destruct (popEncodedData st) as [packet st1]; cbn [fst snd] in *.
  destruct (onGetData_loop_ownership (mkLoop packet false true st1))
    as (evs & Hh & Hr).
  exists evs. cbn [l_self snd] in *. split.
  - rewrite Hh, Hp, <- app_assoc. reflexivity.
  - destruct packet; exact Hr.
Qed.

Lemma onGetData_attempts (st : VS) : attempts st (snd (onGetData st)).
Proof.
  destruct (onGetData_history st) as (evs & Hh & _).
  exists (fst (popEncodedData st)), evs. exact Hh.
Qed.

Lemma idle_not_attempts (st : VS) : ~ attempts st st.
Proof.
  intros (r & evs & Hh).
  apply (f_equal (@length event)) in Hh.
  rewrite length_app in Hh. cbn in Hh. lia.
Qed.

Lemma onGetData_each_pop (st : VS) :
  each_pop_disposed_once (events_since st (snd (onGetData st))).
Proof.
  destruct (onGetData_history st) as (evs & Hh & Hr).
  rewrite (events_since_app _ _ _ Hh).
  unfold each_pop_disposed_once. cbn. exact Hr.
Qed.

(** ** Conservation of packets *)

Lemma frees_of_app (r : nat) (a b : list event) :
  frees_of r (a ++ b) = (frees_of r a + frees_of r b)%nat.
Proof. unfold frees_of. now rewrite filter_app, length_app. Qed.

Lemma conserved_nil (a : list nat) : conserved a a [].
Proof. intros r. right. split; [reflexivity | tauto]. Qed.

Lemma conserved_trans (a b c : list nat) (e1 e2 : list event) :
  conserved a b e1 -> conserved b c e2 -> conserved a c (e1 ++ e2).
Proof.
  intros H1 H2 r. rewrite frees_of_app.
  destruct (H1 r) as [(-> & Ha & Hb)|(-> & Hab)];
    destruct (H2 r) as [(-> & Hb' & Hc)|(-> & Hbc)]; cbn.
  - contradiction.
  - left. repeat split; auto; tauto.
  - left. repeat split; auto; tauto.
  - right. split; [reflexivity | tauto].
Qed.

Lemma conserved_kept (a : list nat) (evs : list event) :
  (forall r, frees_of r evs = 0%nat) -> conserved a a evs.
Proof. intros Hz r. right. split; [apply Hz | tauto]. Qed.

Lemma turn_conserved (p : AVPacket) (st : VS) :
  NoDup (pkt_ref p :: refs (m_packetList st)) ->
  NoDup (held (loop_body p st)) /\
  conserved (pkt_ref p :: refs (m_packetList st)) (held (loop_body p st))
    (turn_events p st).
Proof.
  intros Hnd.
  assert (Hq : NoDup (refs (m_packetList st))) by now inversion Hnd.
  unfold held, in_hand, loop_cond, turn_events, dispose_events.
  destruct (m_packetList st) as [|a q] eqn:Hqe;
    decode_cases p st; unfold popEncodedData; cbn;
    repeat (rewrite Hqe; cbn); split; auto;
    try (apply conserved_kept; intros r; reflexivity);
    try (intros r; unfold frees_of, same_object; cbn;
         inversion Hnd as [|? ? Hnotin _]; subst;
         destruct (Nat.eqb_spec r (pkt_ref p)) as [->|Hne]; cbn;
         [ left; repeat split; auto; now left
         | right; split; [reflexivity|]; split;
           [intros [Heq|Hin]; [now elim Hne | assumption] | intros Hin; now right] ]).
Qed.

Lemma onGetData_loop_conserved (l : loop_state) :
  NoDup (held l) ->
  exists evs,
    history (l_self (onGetData_loop l)) = history (l_self l) ++ evs /\
    NoDup (held (onGetData_loop l)) /\
    conserved (held l) (held (onGetData_loop l)) evs.
Proof.
  apply (onGetData_loop_rule
           (fun l l' => NoDup (held l) -> exists evs,
                history (l_self l') = history (l_self l) ++ evs /\
                NoDup (held l') /\ conserved (held l) (held l') evs)).
  - intros l0 _ Hnd. exists []. rewrite app_nil_r.
    repeat split; auto. apply conserved_nil.
  - intros p st l' IH Hnd.
    change (held (mkLoop (Some p) false true st))
      with (pkt_ref p :: refs (m_packetList st)) in *.
    destruct (turn_conserved p st Hnd) as [Hnd1 Hc1].
    destruct (IH Hnd1) as (evs & Hh & Hnd2 & Hc2).
    exists (turn_events p st ++ evs). cbn [l_self]. repeat split; auto.
    + rewrite Hh, loop_body_history, app_assoc. reflexivity.
    + eapply conserved_trans; eauto.
Qed.

Lemma held_returned (l : loop_state) :
  held (onGetData_loop l) = refs (m_packetList (l_self (onGetData_loop l))).
Proof.
  unfold held, in_hand. now rewrite onGetData_loop_returns.
Qed.

Lemma onGetData_conserved (st : VS) :
  NoDup (refs (m_packetList st)) ->
  NoDup (refs (m_packetList (snd (onGetData st)))) /\
  conserved (refs (m_packetList st)) (refs (m_packetList (snd (onGetData st))))
    (events_since st (snd (onGetData st))).
Proof.
  intros Hnd. rewrite onGetData_unfold. cbn [snd].
  pose proof (popEncodedData_history st) as Hp.
  assert (Hheld : held (onGetData_start st) = refs (m_packetList st)).
  { unfold onGetData_start, popEncodedData, held, in_hand, loop_cond.
    destruct (m_packetList st) eqn:Hqe; cbn; rewrite ?Hqe; reflexivity. }
  assert (Hself : l_self (onGetData_start st) = snd (popEncodedData st)).
  { unfold onGetData_start. now destruct (popEncodedData st). }
  rewrite <- Hheld in Hnd.
  destruct (onGetData_loop_conserved (onGetData_start st) Hnd)
    as (evs & Hh & Hnd' & Hc).
  rewrite held_returned in Hnd', Hc. rewrite Hheld in Hc.
  rewrite Hself, Hp, <- app_assoc in Hh.
  rewrite (events_since_app _ _ _ Hh). split; [exact Hnd'|].
  intros r. exact (Hc r).
Qed.

(** ** Packet ownership *)

(** C1 (amended): every pop made during one call of [onGetData],
    whether the call comes from [preload] or from [updateTexture], is
    answered before the next pop and before the call returns by exactly
    one disposal of the packet popped, a free or a prepend, never both
    and never neither, whatever the decode primitive reports.  The count
    is per pop and not per packet object: a packet requeued without a
    picture is popped again by the same call.  Per object, the packets of
    the source being distinct objects, a packet is at the return either
    back in the source and not freed, or freed exactly once and out of
    the source. *)
Theorem onGetData_disposes_each_pop (st : VS) :
  each_pop_disposed_once (events_since st (snd (onGetData st))) /\
  each_pop_disposed_once (events_since st (preload st)) /\
  each_pop_disposed_once (events_since st (updateTexture st)) /\
  (NoDup (refs (m_packetList st)) ->
   NoDup (refs (m_packetList (snd (onGetData st)))) /\
   conserved (refs (m_packetList st))
     (refs (m_packetList (snd (onGetData st))))
     (events_since st (snd (onGetData st)))).
Proof.
  split; [|split; [|split]].
  - apply onGetData_each_pop.
  - apply onGetData_each_pop.
  - unfold updateTexture.
    destruct (Time.ltb (getSynchronizationGap st) Time.Zero).
    + apply onGetData_each_pop.
    + rewrite events_since_refl. reflexivity.
  - apply onGetData_conserved.
Qed.

(** ** The timestamp of a picture *)

(** A decode that succeeds with a picture stores the timestamp of that
    picture; the start time counts for zero when it is [AV_NOPTS_VALUE].
    The scaling by the time base is the [double] product left to
    [av_q2d_scale]. *)
Lemma decodePacket_timestamp (p : AVPacket) (st : VS) :
  let r := avcodec_decode_video2 (m_codecCtx st) p in
  0 < decodedLength r ->
  gotPicture r <> 0 ->
  m_lastDecodedTimestamp (snd (decodePacket p st)) =
    Time.milliseconds
      (av_q2d_scale (time_base (m_stream st))
         (wrap64 (1000 * wrap64 (best_effort_timestamp (picture r)
                                 - (if start_time (m_stream st) =? AV_NOPTS_VALUE
                                    then 0
                                    else start_time (m_stream st)))))).
Proof.
  intros r Hp Hg.
  assert (Hts : m_lastDecodedTimestamp (snd (decodePacket p st)) =
                frame_timestamp (m_stream st) (picture r)).
  { subst r. revert Hp Hg.
    decode_cases p st; intros Hp Hg;
      try (apply Z.ltb_ge in Hpos; lia);
      try (apply Z.eqb_eq in Hgot; contradiction);
      reflexivity. }
  rewrite Hts. unfold frame_timestamp.
  destruct (start_time (m_stream st) =? AV_NOPTS_VALUE); reflexivity.
Qed.

(** ** The first turn of a call *)

(** With a packet at the head of the queue, a call pops it and hands it
    to the primitive in the codec context it found. *)
Lemma onGetData_first_turn (st : VS) (p : AVPacket) (q : list AVPacket) :
  m_packetList st = p :: q ->
  let r := avcodec_decode_video2 (m_codecCtx st) p in
  exists evs,
    events_since st (snd (onGetData st)) =
      EvPop (Some p) :: EvDecode p (decodedLength r) (gotPicture r) :: evs.
Proof.
  intros Hq r. subst r.
  rewrite onGetData_unfold. cbn [snd].
  unfold onGetData_start, popEncodedData. rewrite Hq.
  rewrite onGetData_loop_step.
  set (st1 := emit (EvPop (Some p)) (set_packetList q st)).
  destruct (onGetData_loop_history (loop_body p st1)) as [evs Hevs].
  rewrite loop_body_history in Hevs.
  change (m_codecCtx st) with (m_codecCtx st1).
  exists (tl (turn_events p st1) ++ evs).
  apply events_since_app. rewrite Hevs.
  assert (Ht : turn_events p st1 =
               EvDecode p (decodedLength (avcodec_decode_video2 (m_codecCtx st1) p))
                 (gotPicture (avcodec_decode_video2 (m_codecCtx st1) p))
               :: tl (turn_events p st1)) by reflexivity.
  rewrite Ht at 1. subst st1. cbn [history emit].
  rewrite <- !app_assoc. reflexivity.
Qed.

(** ** The synchronisation gate *)

(** Without overflow of the [sf::Int64] subtraction the gap is the
    difference of the two times. *)
Lemma wrap64_id (z : Z) : int64_range z -> wrap64 z = z.
Proof.
  unfold int64_range, wrap64. intros Hz.
  rewrite Z.mod_small; lia.
Qed.

Lemma getSynchronizationGap_exact (st : VS) :
  int64_range (m_lastDecodedTimestamp st - Timer.offset (m_timer st)) ->
  getSynchronizationGap st =
    m_lastDecodedTimestamp st - Timer.offset (m_timer st).
Proof. intros Hr. unfold getSynchronizationGap, Time.sub. now apply wrap64_id. Qed.

(** C4: the synchronisation gap is the last decoded timestamp minus the
    offset of the timer, as [sf::Int64] values; [updateTexture] attempts
    a frame, that is calls [onGetData], exactly when that gap is strictly
    negative, and with a gap of zero or more it does nothing at all;
    [preload] is [onGetData] whatever the gap.  The attempt pops the
    packet at the head of the queue and hands it to the decode
    primitive. *)
Theorem updateTexture_attempts_iff_late (st : VS) :
  getSynchronizationGap st =
    wrap64 (m_lastDecodedTimestamp st - Timer.offset (m_timer st)) /\
  (int64_range (m_lastDecodedTimestamp st - Timer.offset (m_timer st)) ->
   (attempts st (updateTexture st) <->
    m_lastDecodedTimestamp st - Timer.offset (m_timer st) < 0)) /\
  (attempts st (updateTexture st) <-> getSynchronizationGap st < 0) /\
  (getSynchronizationGap st < 0 -> updateTexture st = snd (onGetData st)) /\
  (0 <= getSynchronizationGap st -> updateTexture st = st) /\
  preload st = snd (onGetData st) /\
  attempts st (preload st) /\
  (forall p q, m_packetList st = p :: q ->
     exists evs,
       events_since st (snd (onGetData st)) =
         EvPop (Some p)
         :: EvDecode p
              (decodedLength (avcodec_decode_video2 (m_codecCtx st) p))
              (gotPicture (avcodec_decode_video2 (m_codecCtx st) p))
         :: evs).
Proof.
  assert (Hiff : attempts st (updateTexture st) <-> getSynchronizationGap st < 0).
  { unfold updateTexture, Time.ltb, Time.Zero.
    destruct (getSynchronizationGap st <? 0) eqn:Hgap.
    - apply Z.ltb_lt in Hgap. split; intros; auto. apply onGetData_attempts.
    - apply Z.ltb_ge in Hgap. split; intros Ha; [|lia].
      exfalso. eapply idle_not_attempts; eauto. }
  split; [reflexivity|]. split.
  { intros Hr. rewrite Hiff, (getSynchronizationGap_exact st Hr). tauto. }
  split; [exact Hiff|].
  unfold updateTexture, Time.ltb, Time.Zero.
  destruct (getSynchronizationGap st <? 0) eqn:Hgap.
  - apply Z.ltb_lt in Hgap. repeat split; intros; auto; try lia;
      try apply onGetData_attempts.
    now apply onGetData_first_turn with (q := q).
  - apply Z.ltb_ge in Hgap. repeat split; intros; auto; try lia;
      try apply onGetData_attempts.
    now apply onGetData_first_turn with (q := q).
Qed.

(** ** Lifecycle hooks *)

(** C3 (amended): the will-play hook invokes [preload] on every
    transition into Playing; it does not look at the timer, so a frame is
    attempted from Paused as it is from Stopped. *)
Theorem willPlay_always_preloads (timer : Timer.t) (st : VS) :
  willPlay timer st = preload st /\ attempts st (willPlay timer st).
Proof.
  split; [reflexivity|]. apply onGetData_attempts.
Qed.

(** ** The decode loop, turn by turn *)

(** C10: when [decodePacket] returns false, which it does exactly when
    the primitive reports a length of zero or less, the cursor of the
    packet is as it was, [needsMoreDecoding] is false and
    [m_lastDecodedTimestamp] is as it was; the object differs from before
    only by what the primitive left in the codec context and in the raw
    frame. *)
Theorem decodePacket_failure (p : AVPacket) (st : VS) :
  let r := avcodec_decode_video2 (m_codecCtx st) p in
  let d := fst (decodePacket p st) in
  let st' := snd (decodePacket p st) in
  ret d = false ->
  decodedLength r <= 0 /\
  packet_after d = p /\
  needsMoreDecoding d = false /\
  m_lastDecodedTimestamp st' = m_lastDecodedTimestamp st /\
  st' = emit (EvDecode p (decodedLength r) (gotPicture r))
          (set_rawVideoFrame (picture r) (set_codecCtx (codecCtx r) st)).
Proof.
  decode_cases p st; intros Hret; try discriminate;
    apply Z.ltb_ge in Hpos; repeat split; auto.
Qed.

Lemma decodePacket_ret (p : AVPacket) (st : VS) :
  ret (fst (decodePacket p st)) =
    (0 <? decodedLength (avcodec_decode_video2 (m_codecCtx st) p)).
Proof. decode_cases p st; reflexivity. Qed.

(** C2: when the primitive reports a positive length smaller than the
    size of the packet, [decodePacket] sets [needsMoreDecoding] and moves
    the cursor by that length; [onGetData] then prepends that packet
    object and does not free it, so that it is the next packet popped:
    by the same call when there was no picture, by the next call
    otherwise. *)
Theorem partial_consumption_requeues (p : AVPacket) (st : VS) :
  let r := avcodec_decode_video2 (m_codecCtx st) p in
  let p' := mkPacket (pkt_ref p) (data p + decodedLength r)
              (size p - decodedLength r) in
  let d := fst (decodePacket p st) in
  let st' := snd (decode_and_dispose p st) in
  0 < decodedLength r ->
  decodedLength r < size p ->
  needsMoreDecoding d = true /\
  packet_after d = p' /\
  m_packetList st' = p' :: m_packetList st /\
  events_since st st' =
    EvDecode p (decodedLength r) (gotPicture r)
    :: (if gotPicture r =? 0 then [] else [EvPresent (sws_scale (picture r))])
    ++ [EvPrepend p'] /\
  fst (popEncodedData st') = Some p' /\
  (gotPicture r = 0 ->
     l_packet (loop_body p st) = Some p' /\
     loop_cond (loop_body p st) = true) /\
  (gotPicture r <> 0 ->
     onGetData_loop (mkLoop (Some p) false true st) =
       mkLoop (Some p') true true st').
Proof.
  intros r p' d st' Hpos Hlt.
  assert (Hev : events_since st st' = dispose_events p st)
    by (apply events_since_app, decode_and_dispose_history).
  rewrite Hev. clear Hev.
  subst r p' d st'. rewrite onGetData_loop_step.
  unfold dispose_events. revert Hpos Hlt.
  decode_cases p st; intros Hp Hl;
    try (apply Z.ltb_ge in Hpos; lia); try (apply Z.ltb_ge in Hlt; lia).
  - apply Z.eqb_eq in Hgot. subst got.
    repeat split; auto. intros Hne; now elim Hne.
  - apply Z.eqb_neq in Hgot.
    repeat split; auto; try (intros; contradiction);
      try (intros _; now rewrite onGetData_loop_exit).
Qed.

(** C5 (amended): when the primitive reports a length of zero or less
    on the packet of some turn of the loop, that turn is the last one:
    the packet is freed and not requeued, nothing more is popped, and
    [onGetData] returns false.  A frame is presented in that turn only
    if the primitive flagged a picture together with its failure;
    [m_lastDecodedTimestamp] is left alone in either case. *)
Theorem failed_decode_ends_call (st0 : VS) (p : AVPacket) (st : VS) :
  let r := avcodec_decode_video2 (m_codecCtx st) p in
  let st' := snd (onGetData st0) in
  reaches (onGetData_start st0) (mkLoop (Some p) false true st) ->
  decodedLength r <= 0 ->
  fst (onGetData st0) = false /\
  events_since st st' =
    EvDecode p (decodedLength r) (gotPicture r)
    :: (if gotPicture r =? 0 then [] else [EvPresent (sws_scale (picture r))])
    ++ [EvFree p] /\
  m_packetList st' = m_packetList st /\
  m_texture st' =
    (if gotPicture r =? 0 then m_texture st else sws_scale (picture r)) /\
  m_lastDecodedTimestamp st' = m_lastDecodedTimestamp st.
Proof.
  intros r st' Hreach Hlen. subst st'.
  rewrite onGetData_unfold. cbn [fst snd].
  rewrite (reaches_loop _ _ Hreach), onGetData_loop_step.
  assert (Hev : events_since st (snd (decode_and_dispose p st)) = dispose_events p st)
    by (apply events_since_app, decode_and_dispose_history).
  subst r. revert Hlen Hev. unfold dispose_events.
  decode_cases p st; intros Hlen Hev;
    try (apply Z.ltb_lt in Hpos; lia);
    rewrite onGetData_loop_exit by reflexivity; cbn; auto.
Qed.

(** ** The return value *)

Lemma last_decode_app (a b : list event) :
  last_decode (a ++ b) =
  match last_decode b with
  | Some len => Some len
  | None => last_decode a
  end.
Proof.
  induction a as [|e a IH]; cbn.
  - destruct (last_decode b); reflexivity.
  - rewrite IH. destruct (last_decode b); reflexivity.
Qed.

Lemma turn_last_decode (p : AVPacket) (st : VS) :
  last_decode (turn_events p st) =
    Some (decodedLength (avcodec_decode_video2 (m_codecCtx st) p)).
Proof.
  unfold turn_events, dispose_events.
  decode_cases p st; try reflexivity;
    unfold popEncodedData; cbn; destruct (m_packetList st); reflexivity.
Qed.

Lemma onGetData_loop_goOn (l : loop_state) :
  exists evs,
    history (l_self (onGetData_loop l)) = history (l_self l) ++ evs /\
    l_goOn (onGetData_loop l) =
      match last_decode evs with
      | Some len => 0 <? len
      | None => l_goOn l
      end.
Proof.
  apply (onGetData_loop_rule
           (fun l l' => exists evs,
                history (l_self l') = history (l_self l) ++ evs /\
                l_goOn l' = match last_decode evs with
                            | Some len => 0 <? len
                            | None => l_goOn l
                            end)).
  - intros l0 _. exists []. rewrite app_nil_r. auto.
  - intros p st l' (evs & Hh & Hg). cbn [l_self l_goOn].
    exists (turn_events p st ++ evs). split.
    + rewrite Hh, loop_body_history, app_assoc. reflexivity.
    + rewrite Hg, last_decode_app, turn_last_decode.
      destruct (last_decode evs); [reflexivity|].
      destruct (loop_body_flags p st) as [_ ->]. apply decodePacket_ret.
Qed.

Lemma onGetData_goOn (st : VS) :
  fst (onGetData st) =
    match last_decode (events_since st (snd (onGetData st))) with
    | Some len => 0 <? len
    | None => true
    end.
Proof.
  rewrite onGetData_unfold. cbn [fst snd]. unfold onGetData_start.
  pose proof (popEncodedData_history st) as Hp.
  destruct (popEncodedData st) as [packet st1]; cbn [fst snd] in Hp.
  destruct (onGetData_loop_goOn (mkLoop packet false true st1))
    as (evs & Hh & Hg).
  cbn [l_self l_goOn] in Hh, Hg.
  rewrite Hp, <- app_assoc in Hh.
  rewrite (events_since_app _ _ _ Hh), Hg, last_decode_app.
  destruct (last_decode evs); reflexivity.
Qed.

(** The turn on which a loop entered with its condition true ends. *)
Lemma onGetData_loop_last_turn (l : loop_state) :
  loop_cond l = true ->
  exists p st,
    reaches l (mkLoop (Some p) false true st) /\
    loop_cond (loop_body p st) = false /\
    onGetData_loop l = loop_body p st.
Proof.
  apply (onGetData_loop_rule
           (fun l l' =>
              (loop_cond l = false -> l' = l) /\
              (loop_cond l = true ->
               exists p st,
                 reaches l (mkLoop (Some p) false true st) /\
                 loop_cond (loop_body p st) = false /\
                 l' = loop_body p st))).
  - intros l0 Hc. split; [reflexivity|]. rewrite Hc. discriminate.
  - intros p st l' [Hstop Hmore]. split; [discriminate|]. intros _.
    destruct (loop_cond (loop_body p st)) eqn:Hc.
    + destruct (Hmore eq_refl) as (p' & st' & Hr & Hc' & Hl').
      exists p', st'. split; [now apply reaches_turn | auto].
    + exists p, st. split; [apply reaches_here | auto].
Qed.

(** A turn after which the condition is false is the last: the loop
    returns what that turn left. *)
Lemma last_turn_result (l : loop_state) (p : AVPacket) (st : VS) :
  reaches l (mkLoop (Some p) false true st) ->
  loop_cond (loop_body p st) = false ->
  onGetData_loop l = loop_body p st.
Proof.
  intros Hr Hc.
  rewrite (reaches_loop _ _ Hr), onGetData_loop_step.
  now apply onGetData_loop_exit.
Qed.

Lemma failed_turn_is_last (p : AVPacket) (st : VS) :
  ret (fst (decodePacket p st)) = false ->
  loop_cond (loop_body p st) = false.
Proof.
  intros Hret. unfold loop_cond.
  destruct (loop_body_flags p st) as [_ ->]. rewrite Hret.
  now rewrite andb_false_r.
Qed.

(** C9: [onGetData] returns what the [decodePacket] of its last turn
    returned, which is false exactly when the primitive reported a length
    of zero or less; so it returns false exactly when some turn of the
    call met such a report, and that turn is then the last.  With packets
    in the queue there is a last turn; with none there is no decode at
    all and the call returns true, having only popped: no frame was
    produced, and the return value is the one a produced frame gives. *)
Theorem onGetData_false_iff_last_decode_failed (st0 : VS) :
  (forall p st,
     reaches (onGetData_start st0) (mkLoop (Some p) false true st) ->
     loop_cond (loop_body p st) = false ->
     fst (onGetData st0) = ret (fst (decodePacket p st)) /\
     ret (fst (decodePacket p st)) =
       (0 <? decodedLength (avcodec_decode_video2 (m_codecCtx st) p))) /\
  (fst (onGetData st0) = false <->
   exists p st,
     reaches (onGetData_start st0) (mkLoop (Some p) false true st) /\
     decodedLength (avcodec_decode_video2 (m_codecCtx st) p) <= 0) /\
  (m_packetList st0 <> [] ->
   exists p st,
     reaches (onGetData_start st0) (mkLoop (Some p) false true st) /\
     loop_cond (loop_body p st) = false) /\
  (m_packetList st0 = [] -> onGetData st0 = (true, emit (EvPop None) st0)) /\
  (fst (onGetData st0) = false <->
   exists len,
     last_decode (events_since st0 (snd (onGetData st0))) = Some len /\
     len <= 0).
Proof.
  assert (Hempty : m_packetList st0 = [] ->
                   onGetData st0 = (true, emit (EvPop None) st0)).
  { intros Hq. unfold onGetData, popEncodedData. rewrite Hq.
    rewrite onGetData_loop_exit; reflexivity. }
  assert (Hlast : m_packetList st0 <> [] ->
                  exists p st,
                    reaches (onGetData_start st0) (mkLoop (Some p) false true st) /\
                    loop_cond (loop_body p st) = false /\
                    onGetData_loop (onGetData_start st0) = loop_body p st).
  { intros Hq. apply onGetData_loop_last_turn.
    unfold onGetData_start, popEncodedData.
    destruct (m_packetList st0); [now elim Hq | reflexivity]. }
  assert (Hturn : forall p st,
            reaches (onGetData_start st0) (mkLoop (Some p) false true st) ->
            loop_cond (loop_body p st) = false ->
            fst (onGetData st0) = ret (fst (decodePacket p st))).
  { intros p st Hr Hc. rewrite onGetData_unfold. cbn [fst].
    rewrite (last_turn_result _ _ _ Hr Hc).
    now destruct (loop_body_flags p st) as [_ ->]. }
  split; [|split; [|split; [|split]]].
  - intros p st Hr Hc. split; [now apply Hturn | apply decodePacket_ret].
  - split.
    + intros Hfalse.
      destruct (m_packetList st0) as [|p0 q0] eqn:Hq.
      * rewrite (Hempty eq_refl) in Hfalse. discriminate.
      * destruct Hlast as (p & st & Hr & Hc & _); [discriminate|].
        exists p, st. split; [exact Hr|].
        rewrite (Hturn p st Hr Hc), decodePacket_ret in Hfalse.
        now apply Z.ltb_ge.
    + intros (p & st & Hr & Hlen).
      assert (Hret : ret (fst (decodePacket p st)) = false)
        by (rewrite decodePacket_ret; now apply Z.ltb_ge).
      rewrite (Hturn p st Hr (failed_turn_is_last p st Hret)). exact Hret.
  - intros Hq. destruct (Hlast Hq) as (p & st & Hr & Hc & _). eauto.
  - exact Hempty.
  - rewrite onGetData_goOn.
    destruct (last_decode (events_since st0 (snd (onGetData st0)))) as [len|].
    + rewrite Z.ltb_ge. split.
      * intros Hle. exists len. auto.
      * intros (len' & Heq & Hle). now inversion Heq; subst.
    + split; [discriminate|]. intros (len & Heq & _). discriminate.
Qed.

(** ** The timestamp *)

Lemma turn_timestamp (p : AVPacket) (st : VS) :
  existsb is_picture (turn_events p st) = false ->
  m_lastDecodedTimestamp (l_self (loop_body p st)) = m_lastDecodedTimestamp st.
Proof.
  unfold turn_events, dispose_events.
  decode_cases p st; rewrite ?Hpos, ?Hgot; cbn; try discriminate; auto;
    unfold popEncodedData; cbn; destruct (m_packetList st); reflexivity.
Qed.

Lemma onGetData_loop_timestamp (l : loop_state) :
  exists evs,
    history (l_self (onGetData_loop l)) = history (l_self l) ++ evs /\
    (existsb is_picture evs = false ->
     m_lastDecodedTimestamp (l_self (onGetData_loop l)) =
       m_lastDecodedTimestamp (l_self l)).
Proof.
  apply (onGetData_loop_rule
           (fun l l' => exists evs,
                history (l_self l') = history (l_self l) ++ evs /\
                (existsb is_picture evs = false ->
                 m_lastDecodedTimestamp (l_self l') =
                   m_lastDecodedTimestamp (l_self l)))).
  - intros l0 _. exists []. rewrite app_nil_r. auto.
  - intros p st l' (evs & Hh & Ht). cbn [l_self].
    exists (turn_events p st ++ evs). split.
    + rewrite Hh, loop_body_history, app_assoc. reflexivity.
    + rewrite existsb_app. intros [Ha Hb]%orb_false_elim.
      rewrite (Ht Hb). now apply turn_timestamp.
Qed.

Lemma onGetData_timestamp (st : VS) :
  existsb is_picture (events_since st (snd (onGetData st))) = false ->
  m_lastDecodedTimestamp (snd (onGetData st)) = m_lastDecodedTimestamp st.
Proof.
  rewrite onGetData_unfold. cbn [fst snd]. unfold onGetData_start.
  pose proof (popEncodedData_history st) as Hp.
  assert (Hts : m_lastDecodedTimestamp (snd (popEncodedData st)) =
                m_lastDecodedTimestamp st)
    by (unfold popEncodedData; destruct (m_packetList st); reflexivity).
  destruct (popEncodedData st) as [packet st1]; cbn [fst snd] in Hp, Hts.
  destruct (onGetData_loop_timestamp (mkLoop packet false true st1))
    as (evs & Hh & Ht).
  cbn [l_self] in Hh, Ht.
  rewrite Hp, <- app_assoc in Hh.
  rewrite (events_since_app _ _ _ Hh). cbn [app existsb is_picture orb].
  intros Hno. rewrite (Ht Hno). exact Hts.
Qed.

(** C8: [m_lastDecodedTimestamp] changes only when a picture is
    successfully decoded: a call of [onGetData], of [preload] or of
    [updateTexture] in which no decode succeeded with a picture leaves it
    as it was; so does a [preload] with nothing to pop. *)
Theorem timestamp_changes_only_on_picture (st : VS) :
  (existsb is_picture (events_since st (snd (onGetData st))) = false ->
   m_lastDecodedTimestamp (snd (onGetData st)) = m_lastDecodedTimestamp st) /\
  (existsb is_picture (events_since st (updateTexture st)) = false ->
   m_lastDecodedTimestamp (updateTexture st) = m_lastDecodedTimestamp st) /\
  (m_packetList st = [] ->
   m_lastDecodedTimestamp (preload st) = m_lastDecodedTimestamp st).
Proof.
  split; [|split].
  - apply onGetData_timestamp.
  - unfold updateTexture.
    destruct (Time.ltb (getSynchronizationGap st) Time.Zero); auto.
    apply onGetData_timestamp.
  - intros Hq. unfold preload, onGetData, popEncodedData. rewrite Hq.
    rewrite onGetData_loop_exit; reflexivity.
Qed.

(** ** Stopping *)

Lemma turn_codecCtx (p : AVPacket) (st : VS) :
  m_codecCtx (l_self (loop_body p st)) =
    codecCtx (avcodec_decode_video2 (m_codecCtx st) p).
Proof.
  decode_cases p st; try reflexivity;
    unfold popEncodedData; cbn; destruct (m_packetList st); reflexivity.
Qed.

Lemma onGetData_flush (st : VS) :
  flush_discards ->
  avcodec_flush_buffers (m_codecCtx (snd (onGetData st))) =
    avcodec_flush_buffers (m_codecCtx st).
Proof.
  intros Hf. rewrite onGetData_unfold. cbn [snd]. unfold onGetData_start.
  assert (Hc : m_codecCtx (snd (popEncodedData st)) = m_codecCtx st)
    by (unfold popEncodedData; destruct (m_packetList st); reflexivity).
  destruct (popEncodedData st) as [packet st1]; cbn [snd] in Hc.
  rewrite <- Hc.
  change st1 with (l_self (mkLoop packet false true st1)) at 2.
  apply (onGetData_loop_rule
           (fun l l' => avcodec_flush_buffers (m_codecCtx (l_self l')) =
                        avcodec_flush_buffers (m_codecCtx (l_self l)))).
  - reflexivity.
  - intros p st2 l' ->. cbn [l_self]. rewrite turn_codecCtx. apply Hf.
Qed.

Lemma run_flush (calls : list call) (st : VS) :
  flush_discards ->
  avcodec_flush_buffers (m_codecCtx (run calls st)) =
    avcodec_flush_buffers (m_codecCtx st).
Proof.
  intros Hf. revert st. unfold run.
  induction calls as [|c calls IH]; intros st; cbn [fold_left]; [reflexivity|].
  rewrite IH. destruct c; cbn; try reflexivity.
  - unfold updateTexture.
    destruct (Time.ltb (getSynchronizationGap st) Time.Zero);
      [now apply onGetData_flush | reflexivity].
  - now apply onGetData_flush.
  - now apply onGetData_flush.
Qed.

(** C7 (amended): on every transition into Stopped the did-stop hook
    calls the flush of the codec and does nothing else: the queue, with
    a partly consumed packet that may stand at its head, the raw frame,
    the texture and the timestamp are as they were.  With a codec whose
    flush discards what decodes gave it, the codec context after the stop
    is the flushed context of before any of the decodes made since.  The
    first decode of a replay is the primitive on that flushed context and
    on the packet the stop found at the head of the queue, so that a
    picture can come from a packet first submitted before the stop. *)
Theorem didStop_flushes (timer : Timer.t) (previousStatus : Timer.Status) (st : VS) :
  m_codecCtx (didStop timer previousStatus st) =
    avcodec_flush_buffers (m_codecCtx st) /\
  events_since st (didStop timer previousStatus st) = [EvFlush] /\
  (m_packetList (didStop timer previousStatus st) = m_packetList st /\
   m_rawVideoFrame (didStop timer previousStatus st) = m_rawVideoFrame st /\
   m_texture (didStop timer previousStatus st) = m_texture st /\
   m_lastDecodedTimestamp (didStop timer previousStatus st) =
     m_lastDecodedTimestamp st) /\
  (flush_discards ->
   forall calls : list call,
     m_codecCtx (didStop timer previousStatus (run calls st)) =
       avcodec_flush_buffers (m_codecCtx st)) /\
  (forall (replay : Timer.t) (p : AVPacket) (q : list AVPacket),
     m_packetList st = p :: q ->
     let r := avcodec_decode_video2 (avcodec_flush_buffers (m_codecCtx st)) p in
     exists evs,
       events_since (didStop timer previousStatus st)
         (willPlay replay (didStop timer previousStatus st)) =
         EvPop (Some p) :: EvDecode p (decodedLength r) (gotPicture r) :: evs).
Proof.
  split; [reflexivity|split; [|split; [|split]]].
  - apply events_since_app. reflexivity.
  - repeat split.
  - intros Hf calls. cbn. now apply run_flush.
  - intros replay p q Hq r. unfold willPlay, preload.
    apply (onGetData_first_turn (didStop timer previousStatus st) p q).
    exact Hq.
Qed.

(** * Further properties of the decode loop *)

(** Case analysis on what the primitive reports for [p] in [st]. *)
Ltac outcome_cases p st :=
  unfold loop_body, decode_and_dispose, decodePacket;
  destruct (avcodec_decode_video2 (m_codecCtx st) p) as [len got pic ctx] eqn:Hprim;
  cbn [decodedLength gotPicture picture codecCtx];
  destruct (0 <? len) eqn:Hpos;
  destruct (got =? 0) eqn:Hgot;
  destruct (len <? size p) eqn:Hlt;
  cbn.

(** ** The cursor of a packet *)

(** X1: whatever the primitive reports, [decodePacket] leaves the packet
    the same object with the same end ([data + size]); when it asks for
    more decoding the cursor has moved forward and a positive size,
    smaller than before, is left; otherwise the packet is untouched. *)
Theorem decodePacket_cursor (p : AVPacket) (st : VS) :
  let d := fst (decodePacket p st) in
  pkt_ref (packet_after d) = pkt_ref p /\
  data (packet_after d) + size (packet_after d) = data p + size p /\
  (needsMoreDecoding d = true ->
   data p < data (packet_after d) /\ 0 < size (packet_after d) < size p) /\
  (needsMoreDecoding d = false -> packet_after d = p).
Proof.
  outcome_cases p st; repeat split; intros; try discriminate; auto; try lia;
    apply Z.ltb_lt in Hpos, Hlt; lia.
Qed.

(** ** How many decodes one call makes *)

Definition decodes (evs : list event) : nat :=
  length (filter (fun e => match e with
                           | EvDecode _ _ _ => true
                           | _ => false
                           end) evs).

Lemma decodes_app (a b : list event) :
  decodes (a ++ b) = (decodes a + decodes b)%nat.
Proof. unfold decodes. now rewrite filter_app, length_app. Qed.

Lemma turn_decodes (p : AVPacket) (st : VS) : decodes (turn_events p st) = 1%nat.
Proof.
  unfold turn_events, dispose_events.
  outcome_cases p st; try reflexivity;
    unfold popEncodedData; cbn; destruct (m_packetList st); reflexivity.
Qed.

Lemma onGetData_loop_decodes (l : loop_state) :
  exists evs,
    history (l_self (onGetData_loop l)) = history (l_self l) ++ evs /\
    (decodes evs <= loop_measure l)%nat.
Proof.
  apply (onGetData_loop_rule
           (fun l l' => exists evs,
                history (l_self l') = history (l_self l) ++ evs /\
                (decodes evs <= loop_measure l)%nat)).
  - intros l0 _. exists []. rewrite app_nil_r. split; [reflexivity|].
    cbn. lia.
  - intros p st l' (evs & Hh & Hd). cbn [l_self].
    exists (turn_events p st ++ evs). split.
    + rewrite Hh, loop_body_history, app_assoc. reflexivity.
    + rewrite decodes_app, turn_decodes.
      pose proof (loop_body_decreases p st) as Hm.
      change (loop_measure (mkLoop (Some p) false true st))
        with (weight p + queue_weight (m_packetList st))%nat.
      lia.
Qed.

(** X2: one call of [onGetData] calls the primitive at most once per
    packet of the queue and once more per byte those packets hold. *)
Theorem onGetData_decode_bound (st : VS) :
  (decodes (events_since st (snd (onGetData st)))
   <= queue_weight (m_packetList st))%nat.
Proof.
  rewrite onGetData_unfold. cbn [snd].
  pose proof (popEncodedData_history st) as Hp.
  assert (Hm : loop_measure (onGetData_start st) = queue_weight (m_packetList st)).
  { unfold onGetData_start, popEncodedData.
    destruct (m_packetList st) eqn:Hqe; reflexivity. }
  assert (Hself : l_self (onGetData_start st) = snd (popEncodedData st)).
  { unfold onGetData_start. now destruct (popEncodedData st). }
  destruct (onGetData_loop_decodes (onGetData_start st)) as (evs & Hh & Hd).
  rewrite Hself, Hp, <- app_assoc in Hh.
  rewrite (events_since_app _ _ _ Hh), decodes_app. cbn. lia.
Qed.

(** ** Frames presented by one call *)

Definition presents (evs : list event) : nat :=
  length (filter (fun e => match e with
                           | EvPresent _ => true
                           | _ => false
                           end) evs).

(** A loop state whose packet is null has an empty queue behind it. *)
Definition drained (l : loop_state) : Prop :=
  l_packet l = None -> m_packetList (l_self l) = [].

(** The texture and the RGBA buffer at [l'], the loop having been
    entered at [l]: the rescaled raw frame if a frame was got, what they
    were otherwise. *)
Definition shown (l l' : loop_state) : Prop :=
  if l_gotFrame l'
  then m_texture (l_self l') = sws_scale (m_rawVideoFrame (l_self l')) /\
       m_rgbaVideoBuffer (l_self l') = m_texture (l_self l')
  else m_texture (l_self l') = m_texture (l_self l) /\
       m_rgbaVideoBuffer (l_self l') = m_rgbaVideoBuffer (l_self l).

Lemma presents_app (a b : list event) :
  presents (a ++ b) = (presents a + presents b)%nat.
Proof. unfold presents. now rewrite filter_app, length_app. Qed.

Lemma turn_shape (p : AVPacket) (st : VS) :
  presents (turn_events p st) =
    (if l_gotFrame (loop_body p st) then 1 else 0)%nat /\
  shown (mkLoop (Some p) false true st) (loop_body p st) /\
  drained (loop_body p st).
Proof.
  unfold turn_events, dispose_events, shown, drained.
  outcome_cases p st; repeat split; try discriminate; auto;
    unfold popEncodedData; cbn;
    destruct (m_packetList st) eqn:Hqe; cbn; rewrite ?Hqe;
    try discriminate; auto.
Qed.

Lemma onGetData_loop_shape (l : loop_state) :
  l_gotFrame l = false ->
  drained l ->
  exists evs,
    history (l_self (onGetData_loop l)) = history (l_self l) ++ evs /\
    presents evs = (if l_gotFrame (onGetData_loop l) then 1 else 0)%nat /\
    shown l (onGetData_loop l) /\
    drained (onGetData_loop l).
Proof.
  apply (onGetData_loop_rule
           (fun l l' =>
              (loop_cond l = false -> l' = l) /\
              (l_gotFrame l = false -> drained l ->
               exists evs,
                 history (l_self l') = history (l_self l) ++ evs /\
                 presents evs = (if l_gotFrame l' then 1 else 0)%nat /\
                 shown l l' /\ drained l'))).
  - intros l0 _. split; [reflexivity|]. intros Hg Hd.
    exists []. rewrite app_nil_r. unfold shown. rewrite Hg. auto.
  - intros p st l' [Hstop IH]. split; [discriminate|]. intros _ _.
    destruct (turn_shape p st) as (Hpr & Hsh & Hdr).
    cbn [l_self].
    destruct (l_gotFrame (loop_body p st)) eqn:Hgf.
    + assert (Hl' : l' = loop_body p st).
      { apply Hstop. unfold loop_cond. now rewrite Hgf. }
      subst l'. exists (turn_events p st). rewrite loop_body_history, Hgf.
      repeat split; auto.
    + destruct (IH eq_refl Hdr) as (evs & Hh & Hp & Hs & Hd).
      exists (turn_events p st ++ evs).
      rewrite Hh, loop_body_history, app_assoc, presents_app, Hpr, Hp.
      repeat split; auto.
      unfold shown in *. rewrite Hgf in Hsh. cbn [l_self] in *.
      destruct (l_gotFrame l'); [exact Hs|].
      destruct Hs as [-> ->]. exact Hsh.
Qed.

Lemma onGetData_shape (st : VS) :
  let l := onGetData_loop (onGetData_start st) in
  presents (events_since st (l_self l)) = (if l_gotFrame l then 1 else 0)%nat /\
  (if l_gotFrame l
   then m_texture (l_self l) = sws_scale (m_rawVideoFrame (l_self l)) /\
        m_rgbaVideoBuffer (l_self l) = m_texture (l_self l)
   else m_texture (l_self l) = m_texture st /\
        m_rgbaVideoBuffer (l_self l) = m_rgbaVideoBuffer st) /\
  drained l.
Proof.
  intros l. subst l.
  pose proof (popEncodedData_history st) as Hp.
  assert (Hstart : l_gotFrame (onGetData_start st) = false /\
                   drained (onGetData_start st) /\
                   l_self (onGetData_start st) = snd (popEncodedData st) /\
                   m_texture (snd (popEncodedData st)) = m_texture st /\
                   m_rgbaVideoBuffer (snd (popEncodedData st)) =
                     m_rgbaVideoBuffer st).
  { unfold onGetData_start, popEncodedData, drained.
    destruct (m_packetList st) eqn:Hqe; cbn; rewrite ?Hqe;
      repeat split; auto; discriminate. }
  destruct Hstart as (Hg & Hd & Hself & Htex & Hbuf).
  destruct (onGetData_loop_shape (onGetData_start st) Hg Hd)
    as (evs & Hh & Hpr & Hsh & Hdr).
  rewrite Hself, Hp, <- app_assoc in Hh.
  rewrite (events_since_app _ _ _ Hh), presents_app, Hpr.
  unfold shown in Hsh. rewrite Hself, Htex, Hbuf in Hsh.
  repeat split; auto.
Qed.

(** X3: one call of [onGetData] presents at most one frame.  If it
    presents one, the texture and the RGBA buffer hold at the return the
    rescaled picture that is in the raw frame; if it presents none, both
    are as they were. *)
Theorem onGetData_presents_at_most_once (st : VS) :
  let st' := snd (onGetData st) in
  let evs := events_since st st' in
  (presents evs <= 1)%nat /\
  (presents evs = 1%nat ->
   m_texture st' = sws_scale (m_rawVideoFrame st') /\
   m_rgbaVideoBuffer st' = m_texture st') /\
  (presents evs = 0%nat ->
   m_texture st' = m_texture st /\
   m_rgbaVideoBuffer st' = m_rgbaVideoBuffer st).
Proof.
  intros st' evs. subst st' evs. rewrite onGetData_unfold. cbn [snd].
  destruct (onGetData_shape st) as (Hpr & Hsh & _).
  rewrite Hpr.
  destruct (l_gotFrame (onGetData_loop (onGetData_start st)));
    repeat split; intros; try discriminate; try lia; apply Hsh.
Qed.

(** X4: when [onGetData] returns true without having presented a frame,
    the packet queue is empty: the loop gives up on a frame only when a
    decode fails or the packets run out. *)
Theorem true_without_frame_means_exhausted (st : VS) :
  fst (onGetData st) = true ->
  presents (events_since st (snd (onGetData st))) = 0%nat ->
  m_packetList (snd (onGetData st)) = [].
Proof.
  rewrite onGetData_unfold. cbn [fst snd]. intros Hgo Hnone.
  destruct (onGetData_shape st) as (Hpr & _ & Hdr).
  rewrite Hpr in Hnone.
  pose proof (onGetData_loop_returns (onGetData_start st)) as Hc.
  unfold loop_cond in Hc. rewrite Hgo in Hc.
  destruct (l_gotFrame (onGetData_loop (onGetData_start st))); [discriminate|].
  apply Hdr.
  destruct (l_packet (onGetData_loop (onGetData_start st))); [discriminate|].
  reflexivity.
Qed.

(** ** The queue is consumed from its front *)

(** [q'] is [q] with some packets taken off its front; the packet now
    at the front is one of [q], possibly with its cursor moved; the
    packets behind it are those of [q], untouched and in order. *)
Definition front_consumed (q q' : list AVPacket) : Prop :=
  exists k, refs q' = skipn k (refs q) /\ tl q' = skipn (S k) q.

(** The packets still to be dealt with when the loop stands at its head:
    the one in hand, then the queue. *)
Definition waiting (l : loop_state) : list AVPacket :=
  (if loop_cond l
   then match l_packet l with
        | Some p => [p]
        | None => []
        end
   else []) ++ m_packetList (l_self l).

Lemma skipn_S_tl {A : Type} (k : nat) (l : list A) :
  skipn (S k) l = skipn k (tl l).
Proof. destruct l; [now rewrite !skipn_nil | reflexivity]. Qed.

Lemma front_consumed_refl (q : list AVPacket) : front_consumed q q.
Proof. exists 0%nat. split; [reflexivity | now destruct q]. Qed.

Lemma front_consumed_trans (a b c : list AVPacket) :
  front_consumed a b -> front_consumed b c -> front_consumed a c.
Proof.
  intros (k1 & Hr1 & Ht1) (k2 & Hr2 & Ht2). exists (k2 + k1)%nat. split.
  - rewrite Hr2, Hr1. apply skipn_skipn.
  - rewrite Ht2, skipn_S_tl, Ht1, skipn_skipn.
    now rewrite Nat.add_succ_r.
Qed.

Lemma turn_front (p : AVPacket) (st : VS) :
  front_consumed (p :: m_packetList st) (waiting (loop_body p st)).
Proof.
  unfold waiting, loop_cond.
  outcome_cases p st;
    try (exists 1%nat; split; reflexivity);
    try (exists 0%nat; split; reflexivity);
    unfold popEncodedData; cbn;
    destruct (m_packetList st) eqn:Hqe; cbn; rewrite ?Hqe;
    try (exists 1%nat; split; reflexivity);
    exists 0%nat; split; reflexivity.
Qed.

Lemma onGetData_loop_front (l : loop_state) :
  front_consumed (waiting l) (waiting (onGetData_loop l)).
Proof.
  apply (onGetData_loop_rule
           (fun l l' => front_consumed (waiting l) (waiting l'))).
  - intros l0 _. apply front_consumed_refl.
  - intros p st l' IH.
    eapply front_consumed_trans; [|exact IH]. apply turn_front.
Qed.

Lemma onGetData_front (st : VS) :
  front_consumed (m_packetList st) (m_packetList (snd (onGetData st))).
Proof.
  rewrite onGetData_unfold. cbn [snd].
  assert (Hw : waiting (onGetData_start st) = m_packetList st).
  { unfold onGetData_start, popEncodedData, waiting, loop_cond.
    destruct (m_packetList st) eqn:Hqe; cbn; rewrite ?Hqe; reflexivity. }
  pose proof (onGetData_loop_front (onGetData_start st)) as Hl.
  rewrite Hw in Hl. unfold waiting in Hl at 1.
  rewrite onGetData_loop_returns in Hl. exact Hl.
Qed.

(** X5: [onGetData] takes packets off the front of the queue only.  At
    the return the queue is a tail of what it was, except that its first
    packet may have had its cursor moved; it is never longer. *)
Theorem onGetData_consumes_from_front (st : VS) :
  front_consumed (m_packetList st) (m_packetList (snd (onGetData st))) /\
  (length (m_packetList (snd (onGetData st))) <= length (m_packetList st))%nat.
Proof.
  pose proof (onGetData_front st) as Hf.
  split; [exact Hf|].
  destruct Hf as (k & Hr & _).
  apply (f_equal (@length nat)) in Hr.
  unfold refs in Hr. rewrite length_skipn, !length_map in Hr. lia.
Qed.

(** ** A turn that gets a picture *)

(** X6: when, on the packet of some turn, the primitive reports a
    positive length and a picture, that turn is the last: [onGetData]
    returns true with that picture in the raw frame, its rescaled pixels
    in the texture and its timestamp stored; the packet is requeued if
    bytes are left in it and freed otherwise, and nothing more is
    popped. *)
Theorem picture_ends_call (st0 : VS) (p : AVPacket) (st : VS) :
  let r := avcodec_decode_video2 (m_codecCtx st) p in
  let st' := snd (onGetData st0) in
  reaches (onGetData_start st0) (mkLoop (Some p) false true st) ->
  0 < decodedLength r ->
  gotPicture r <> 0 ->
  fst (onGetData st0) = true /\
  m_rawVideoFrame st' = picture r /\
  m_texture st' = sws_scale (picture r) /\
  m_lastDecodedTimestamp st' = frame_timestamp (m_stream st) (picture r) /\
  m_packetList st' =
    (if decodedLength r <? size p
     then advance p (decodedLength r) :: m_packetList st
     else m_packetList st) /\
  events_since st st' =
    [EvDecode p (decodedLength r) (gotPicture r);
     EvPresent (sws_scale (picture r));
     if decodedLength r <? size p
     then EvPrepend (advance p (decodedLength r))
     else EvFree p].
Proof.
  intros r st' Hreach Hlen Hgot0. subst st'.
  rewrite onGetData_unfold. cbn [fst snd].
  rewrite (reaches_loop _ _ Hreach), onGetData_loop_step.
  assert (Hev : events_since st (snd (decode_and_dispose p st)) = dispose_events p st)
    by (apply events_since_app, decode_and_dispose_history).
  subst r. revert Hlen Hgot0 Hev. unfold dispose_events.
  outcome_cases p st; intros Hlen Hgot0 Hev;
    try (apply Z.ltb_ge in Hpos; lia);
    try (apply Z.eqb_eq in Hgot; contradiction);
    rewrite onGetData_loop_exit by reflexivity; cbn; auto 10.
Qed.

(** ** What a call leaves alone *)

Lemma turn_keeps (p : AVPacket) (st : VS) :
  m_stream (l_self (loop_body p st)) = m_stream st /\
  m_timer (l_self (loop_body p st)) = m_timer st.
Proof.
  outcome_cases p st; try (split; reflexivity);
    unfold popEncodedData; cbn; destruct (m_packetList st); split; reflexivity.
Qed.

Lemma onGetData_keeps (st : VS) :
  m_stream (snd (onGetData st)) = m_stream st /\
  m_timer (snd (onGetData st)) = m_timer st.
Proof.
  rewrite onGetData_unfold. cbn [snd].
  assert (Hs : m_stream (l_self (onGetData_start st)) = m_stream st /\
               m_timer (l_self (onGetData_start st)) = m_timer st).
  { unfold onGetData_start, popEncodedData.
    destruct (m_packetList st); split; reflexivity. }
  destruct Hs as [<- <-].
  apply (onGetData_loop_rule
           (fun l l' => m_stream (l_self l') = m_stream (l_self l) /\
                        m_timer (l_self l') = m_timer (l_self l))).
  - auto.
  - intros p st1 l' [-> ->]. cbn [l_self]. apply turn_keeps.
Qed.

(** X7: a late stream whose tick decodes no picture tries again at the
    next tick.  When [updateTexture] is entered with a negative gap and
    none of its decodes succeeds with a picture, then whatever the timer
    reads afterwards, provided it has not gone back and the subtraction
    does not overflow, the gap is the old timestamp minus the new
    reading, it is still negative, and the next [updateTexture] calls
    [onGetData] again. *)
Theorem late_without_picture_retries (st : VS) (timer : Timer.t) :
  let st1 := set_timer timer (updateTexture st) in
  getSynchronizationGap st < 0 ->
  existsb is_picture (events_since st (updateTexture st)) = false ->
  Timer.offset (m_timer st) <= Timer.offset timer ->
  int64_range (m_lastDecodedTimestamp st - Timer.offset (m_timer st)) ->
  int64_range (m_lastDecodedTimestamp st - Timer.offset timer) ->
  getSynchronizationGap st1 = m_lastDecodedTimestamp st - Timer.offset timer /\
  getSynchronizationGap st1 < 0 /\
  updateTexture st1 = snd (onGetData st1).
Proof.
  intros st1 Hlate Hno Hclock Hr0 Hr1.
  assert (Hts : m_lastDecodedTimestamp (updateTexture st) =
                m_lastDecodedTimestamp st).
  { revert Hno. unfold updateTexture.
    destruct (Time.ltb (getSynchronizationGap st) Time.Zero); auto.
    apply onGetData_timestamp. }
  assert (Hgap : getSynchronizationGap st1 =
                 m_lastDecodedTimestamp st - Timer.offset timer).
  { unfold getSynchronizationGap, st1, Time.sub, Timer.getOffset.
    cbn [m_lastDecodedTimestamp m_timer set_timer].
    rewrite Hts. now apply wrap64_id. }
  rewrite (getSynchronizationGap_exact st Hr0) in Hlate.
  assert (Hneg : getSynchronizationGap st1 < 0) by (rewrite Hgap; lia).
  repeat split; auto.
  unfold updateTexture at 1, Time.ltb, Time.Zero.
  apply Z.ltb_lt in Hneg. now rewrite Hneg.
Qed.

(** ** Whole runs *)

Lemma run_call_front (c : call) (st : VS) :
  front_consumed (m_packetList st) (m_packetList (run_call st c)) /\
  m_stream (run_call st c) = m_stream st.
Proof.
  destruct c; cbn; try (split; [apply front_consumed_refl | reflexivity]).
  - unfold updateTexture.
    destruct (Time.ltb (getSynchronizationGap st) Time.Zero).
    + split; [apply onGetData_front | apply onGetData_keeps].
    + split; [apply front_consumed_refl | reflexivity].
  - split; [apply onGetData_front | apply onGetData_keeps].
  - split; [apply onGetData_front | apply onGetData_keeps].
Qed.

(** X10: whatever calls are made on the object between two stops, and
    whatever the timer does meanwhile, packets only leave the queue, from
    its front and in order, and the stream descriptor stays what it was;
    a stop after them touches neither. *)
Theorem run_consumes_from_front (calls : list call) (st : VS)
    (timer : Timer.t) (previousStatus : Timer.Status) :
  front_consumed (m_packetList st) (m_packetList (run calls st)) /\
  m_stream (run calls st) = m_stream st /\
  m_packetList (didStop timer previousStatus (run calls st)) =
    m_packetList (run calls st) /\
  m_stream (didStop timer previousStatus (run calls st)) = m_stream st.
Proof.
  assert (Hrun : front_consumed (m_packetList st) (m_packetList (run calls st)) /\
                 m_stream (run calls st) = m_stream st).
  { revert st. unfold run.
    induction calls as [|c calls IH]; intros st; cbn [fold_left].
    - split; [apply front_consumed_refl | reflexivity].
    - destruct (run_call_front c st) as [Hf Hs].
      destruct (IH (run_call st c)) as [Hf' Hs'].
      split; [eapply front_consumed_trans; eauto | congruence]. }
  destruct Hrun as [Hf Hs]. repeat split; auto.
Qed.

(** The timestamp a picture turn stores is the one the call returns
    with. *)
Lemma picture_turn_timestamp (st0 : VS) (p : AVPacket) (st : VS) :
  reaches (onGetData_start st0) (mkLoop (Some p) false true st) ->
  0 < decodedLength (avcodec_decode_video2 (m_codecCtx st) p) ->
  gotPicture (avcodec_decode_video2 (m_codecCtx st) p) <> 0 ->
  m_lastDecodedTimestamp (snd (onGetData st0)) =
    m_lastDecodedTimestamp (snd (decodePacket p st)).
Proof.
  intros Hreach Hlen Hgot0.
  rewrite onGetData_unfold. cbn [fst snd].
  rewrite (reaches_loop _ _ Hreach), onGetData_loop_step.
  revert Hlen Hgot0.
  outcome_cases p st; intros Hlen Hgot0;
    try (apply Z.ltb_ge in Hpos; lia);
    try (apply Z.eqb_eq in Hgot; contradiction);
    rewrite onGetData_loop_exit by reflexivity; reflexivity.
Qed.

End Members.

(** * The timestamp in double precision

    Line 157, [sf::Int64 ms = 1000 * (timestamp - startTime) *
    av_q2d(m_stream->time_base)]: the [int64_t] product is converted to
    [double], multiplied by [av_q2d], which is
    [a.num / (double) a.den], and the product is converted back to an
    integer, which truncates toward zero.  Binary64 arithmetic is that of
    the standard library's [SpecFloat], rounding to nearest even. *)

From Stdlib Require SpecFloat.

Module Double.

Definition prec : Z := 53.
Definition emax : Z := 1024.

Definition double := SpecFloat.spec_float.

(** Conversion of an integer to [double]. *)
Definition of_int (z : Z) : double := SpecFloat.binary_normalize prec emax z 0 false.

Definition mul (x y : double) : double := SpecFloat.SFmul prec emax x y.

Definition div (x y : double) : double := SpecFloat.SFdiv prec emax x y.

(** Conversion of a [double] to [sf::Int64]: the fraction is dropped.
    Out of range, or not a number, the conversion is undefined in C++;
    the value given here is the one of the x86-64 conversion. *)
Definition to_int64 (f : double) : Z :=
  match f with
  | SpecFloat.S754_zero _ => 0
  | SpecFloat.S754_finite s m e =>
      let magnitude := if 0 <=? e then Z.pos m * 2 ^ e else Z.pos m / 2 ^ (- e) in
      let v := if s then - magnitude else magnitude in
      if (- 2 ^ 63 <=? v) && (v <? 2 ^ 63) then v else - 2 ^ 63
  | _ => - 2 ^ 63
  end.

(** libavutil: [static inline double av_q2d(AVRational a)
    { return a.num / (double) a.den; }] *)
Definition av_q2d (a : AVRational) : double := div (of_int (num a)) (of_int (den a)).

(** [(sf::Int64)(x * av_q2d(tb))] *)
Definition scale (tb : AVRational) (x : Z) : Z := to_int64 (mul (of_int x) (av_q2d tb)).

End Double.

(** What the specification says is stored, for a picture of timestamp
    [timestamp] in a stream of start time [startTime] and time base [tb]:
    a whole number of milliseconds equal to
    [1000 * (timestamp - startTime) * num / den]. *)
Definition stores_claimed_timestamp
    (stored : Time.t) (timestamp startTime : Z) (tb : AVRational) : Prop :=
  exists ms : Z,
    ms * den tb = 1000 * (timestamp - startTime) * num tb /\
    stored = ms * 1000.

(** C6 (amended): for a picture successfully decoded on any turn of
    [onGetData], the timestamp stored is, in microseconds, a thousand
    times the 32 low bits of the integer part of the double precision
    product of [1000 * (timestamp - startTime)] and [num / den], the
    start time counting for zero when it is [AV_NOPTS_VALUE]; the call
    returns with that value, which nothing recomputes. *)
Theorem timestamp_is_truncated_double_product
    {codec : Type} `{CodecPrimitive codec} (sws_scale : AVFrame -> list Z)
    (st0 : VideoStream codec) (p : AVPacket) (st : VideoStream codec) :
  let r := avcodec_decode_video2 (m_codecCtx st) p in
  let startTime :=
    if start_time (m_stream st) =? AV_NOPTS_VALUE
    then 0
    else start_time (m_stream st) in
  let ticks := wrap64 (1000 * wrap64 (best_effort_timestamp (picture r) - startTime)) in
  let ms :=
    Double.to_int64
      (Double.mul (Double.of_int ticks)
         (Double.div (Double.of_int (num (time_base (m_stream st))))
            (Double.of_int (den (time_base (m_stream st)))))) in
  reaches sws_scale Double.scale (onGetData_start st0)
    (mkLoop (Some p) false true st) ->
  0 < decodedLength r ->
  gotPicture r <> 0 ->
  m_lastDecodedTimestamp (snd (decodePacket Double.scale p st)) = wrap32 ms * 1000 /\
  m_lastDecodedTimestamp (snd (onGetData sws_scale Double.scale st0)) =
    wrap32 ms * 1000.
Proof.
  intros r startTime ticks ms Hreach Hlen Hgot.
  assert (Hd : m_lastDecodedTimestamp (snd (decodePacket Double.scale p st)) =
               wrap32 ms * 1000).
  { rewrite (decodePacket_timestamp Double.scale p st Hlen Hgot). reflexivity. }
  split; [exact Hd|].
  rewrite (picture_turn_timestamp sws_scale Double.scale st0 p st Hreach Hlen Hgot).
  exact Hd.
Qed.

(** ** A scripted codec

    A test double for the decode primitive: the context is the list of
    outcomes still to be reported, one per call; flushing empties it. *)
Module Scripted.

Definition codec := list (Z * Z * AVFrame).

Definition blank : AVFrame := mkFrame 0 [].

#[export] Instance primitive : CodecPrimitive codec := {
  avcodec_decode_video2 c _ :=
    match c with
    | [] => mkResult (-1) 0 blank []
    | (len, got, pic) :: c' => mkResult len got pic c'
    end;
  avcodec_flush_buffers _ := []
}.

(** Rescaling keeps the pixels; the scaling by the time base is the
    double precision product of line 157. *)
Definition sws_scale (f : AVFrame) : list Z := frame_data f.
Definition av_q2d_scale (tb : AVRational) (x : Z) : Z := Double.scale tb x.

Definition stream : AVStream := mkStream AV_NOPTS_VALUE (mkRational 1 25).

Definition init (script : codec) (q : list AVPacket) (off : Z) : VideoStream codec :=
  mkVideoStream stream script q (Timer.mk Timer.Stopped off) [] blank []
    Time.Zero [].

End Scripted.

(** ** A codec with one packet of delay

    A second test double: the context is the packet buffered by the last
    decode; a decode buffers its packet whole and gives the picture of
    the packet buffered before, if there is one; flushing drops the
    buffer. *)
Module Delayed.

Definition codec := option AVPacket.

#[export] Instance primitive : CodecPrimitive codec := {
  avcodec_decode_video2 c p :=
    match c with
    | None => mkResult (size p) 0 Scripted.blank (Some p)
    | Some q => mkResult (size p) 1 (mkFrame (data q) [Z.of_nat (pkt_ref q)]) (Some p)
    end;
  avcodec_flush_buffers _ := None
}.

Definition init (q : list AVPacket) (off : Z) : VideoStream codec :=
  mkVideoStream Scripted.stream None q (Timer.mk Timer.Stopped off) []
    Scripted.blank [] Time.Zero [].

End Delayed.

(** ** Runs with the scripted codec *)
Module ScriptedRuns.
Import Scripted.

Local Abbreviation onGetData' := (onGetData sws_scale av_q2d_scale) (only parsing).
Local Abbreviation preload' := (preload sws_scale av_q2d_scale) (only parsing).
Local Abbreviation updateTexture' := (updateTexture sws_scale av_q2d_scale) (only parsing).
Local Abbreviation willPlay' := (willPlay sws_scale av_q2d_scale) (only parsing).

Definition pkt1 : AVPacket := mkPacket 1 100 10.
Definition pkt2 : AVPacket := mkPacket 2 200 10.

(** One packet that the codec consumes in two halves, without a picture
    either time. *)
Definition twice_partial : VideoStream codec :=
  init [(5, 0, blank); (5, 0, blank)] [pkt1] 0.

Example twice_partial_events :
  events_since twice_partial (snd (onGetData' twice_partial)) =
    [EvPop (Some pkt1); EvDecode pkt1 5 0; EvPrepend (mkPacket 1 105 5);
     EvPop (Some (mkPacket 1 105 5)); EvDecode (mkPacket 1 105 5) 5 0;
     EvFree (mkPacket 1 105 5); EvPop None].
Proof. vm_compute. reflexivity. Qed.

(** C1, as stated, fails: in one call the packet object 1 is popped,
    requeued once, popped again and freed once; over the call it has been
    both requeued and freed. *)
Lemma requeued_then_freed_in_one_call :
  ~ each_packet_disposed_once
      (events_since twice_partial (snd (onGetData' twice_partial))).
Proof.
  intros Hc. specialize (Hc 1%nat).
  rewrite twice_partial_events in Hc.
  destruct (Hc eq_refl) as [[_ Hq]|[Hf _]]; vm_compute in *; discriminate.
Qed.

Lemma onGetData_disposes_each_pop_witness :
  NoDup (refs (m_packetList twice_partial)) /\
  m_packetList (snd (onGetData' twice_partial)) = [] /\
  conserved [1%nat] []
    (events_since twice_partial (snd (onGetData' twice_partial))).
Proof.
  assert (Hnd : NoDup (refs (m_packetList twice_partial)))
    by (repeat constructor; cbn; tauto).
  destruct (onGetData_disposes_each_pop sws_scale av_q2d_scale twice_partial)
    as (_ & _ & _ & Hcons).
  destruct (Hcons Hnd) as [_ Hc].
  split; [exact Hnd|]. split; [vm_compute; reflexivity|].
  exact Hc.
Defined.

(** A paused stream with one whole picture waiting. *)
Definition paused : VideoStream codec :=
  mkVideoStream stream [(10, 1, mkFrame 1 [7])] [pkt1]
    (Timer.mk Timer.Paused 0) [] blank [] Time.Zero [].

(** C3, as stated, fails: called with the timer Paused, [willPlay] pops
    a packet, decodes it and presents the picture. *)
Lemma willPlay_from_paused_decodes :
  Timer.status (m_timer paused) = Timer.Paused /\
  events_since paused (willPlay' (m_timer paused) paused) =
    [EvPop (Some pkt1); EvDecode pkt1 10 1; EvPresent [7]; EvFree pkt1] /\
  m_texture (willPlay' (m_timer paused) paused) = [7] /\
  m_texture paused = [].
Proof. vm_compute. auto. Qed.

(** A decode that fails and flags a picture all the same. *)
Definition failing_with_picture : VideoStream codec :=
  init [(-1, 1, mkFrame 3 [9])] [pkt1; pkt2] 0.

(** C5, as stated, fails: the primitive reports -1 and the call returns
    false, yet the picture it flagged was rescaled and presented in that
    turn. *)
Lemma failed_decode_presents_flagged_picture :
  fst (onGetData' failing_with_picture) = false /\
  events_since failing_with_picture (snd (onGetData' failing_with_picture)) =
    [EvPop (Some pkt1); EvDecode pkt1 (-1) 1; EvPresent [9]; EvFree pkt1] /\
  m_texture (snd (onGetData' failing_with_picture)) = [9] /\
  m_texture failing_with_picture = [].
Proof. vm_compute. auto. Qed.

(** A decode that fails on the first of two packets. *)
Definition failing : VideoStream codec := init [(-1, 0, blank)] [pkt1; pkt2] 0.

Lemma failed_decode_ends_call_witness :
  reaches sws_scale av_q2d_scale (onGetData_start failing)
    (mkLoop (Some pkt1) false true (snd (popEncodedData failing))) /\
  decodedLength
    (avcodec_decode_video2 (m_codecCtx (snd (popEncodedData failing))) pkt1) <= 0 /\
  fst (onGetData' failing) = false /\
  m_packetList (snd (onGetData' failing)) = [pkt2] /\
  m_texture (snd (onGetData' failing)) = [].
Proof.
  assert (Hr : reaches sws_scale av_q2d_scale (onGetData_start failing)
                 (mkLoop (Some pkt1) false true (snd (popEncodedData failing))))
    by apply reaches_here.
  assert (Hl : decodedLength
                 (avcodec_decode_video2
                    (m_codecCtx (snd (popEncodedData failing))) pkt1) <= 0)
    by (cbn; lia).
  destruct (failed_decode_ends_call sws_scale av_q2d_scale failing pkt1
              (snd (popEncodedData failing)) Hr Hl)
    as (Hret & _ & Hq & Ht & _).
  repeat split; auto.
Defined.

(** A packet of ten bytes of which the codec takes four, with a
    picture. *)
Definition partial : VideoStream codec :=
  init [(4, 1, mkFrame 2 [7]); (6, 1, mkFrame 3 [8])] [pkt2] 0.

Lemma partial_consumption_requeues_witness :
  0 < decodedLength (avcodec_decode_video2 (m_codecCtx partial) pkt1) /\
  decodedLength (avcodec_decode_video2 (m_codecCtx partial) pkt1) < size pkt1 /\
  needsMoreDecoding (fst (decodePacket av_q2d_scale pkt1 partial)) = true /\
  packet_after (fst (decodePacket av_q2d_scale pkt1 partial)) = mkPacket 1 104 6 /\
  m_packetList (snd (decode_and_dispose sws_scale av_q2d_scale pkt1 partial)) =
    [mkPacket 1 104 6; pkt2] /\
  fst (popEncodedData (snd (decode_and_dispose sws_scale av_q2d_scale pkt1 partial))) =
    Some (mkPacket 1 104 6).
Proof.
  assert (Hpos : 0 < decodedLength (avcodec_decode_video2 (m_codecCtx partial) pkt1))
    by (cbn; lia).
  assert (Hlt : decodedLength (avcodec_decode_video2 (m_codecCtx partial) pkt1)
                < size pkt1)
    by (cbn; lia).
  destruct (partial_consumption_requeues sws_scale av_q2d_scale pkt1 partial Hpos Hlt)
    as (Hn & Hp & Hq & _ & Hnext & _).
  repeat split; auto.
Defined.

Lemma decodePacket_failure_witness :
  ret (fst (decodePacket av_q2d_scale pkt1 failing)) = false /\
  packet_after (fst (decodePacket av_q2d_scale pkt1 failing)) = pkt1 /\
  needsMoreDecoding (fst (decodePacket av_q2d_scale pkt1 failing)) = false /\
  m_lastDecodedTimestamp (snd (decodePacket av_q2d_scale pkt1 failing)) =
    m_lastDecodedTimestamp failing.
Proof.
  assert (Hret : ret (fst (decodePacket av_q2d_scale pkt1 failing)) = false)
    by reflexivity.
  destruct (decodePacket_failure av_q2d_scale pkt1 failing Hret)
    as (_ & Hp & Hn & Ht & _).
  repeat split; auto.
Defined.

(** Nothing left to pop. *)
Definition exhausted : VideoStream codec := init [] [] 0.

Lemma onGetData_false_iff_last_decode_failed_witness :
  m_packetList exhausted = [] /\
  onGetData' exhausted = (true, emit (EvPop None) exhausted) /\
  reaches sws_scale av_q2d_scale (onGetData_start failing)
    (mkLoop (Some pkt1) false true (snd (popEncodedData failing))) /\
  decodedLength
    (avcodec_decode_video2 (m_codecCtx (snd (popEncodedData failing))) pkt1) <= 0 /\
  fst (onGetData' failing) = false /\
  m_packetList twice_partial <> [] /\
  (exists p st,
     reaches sws_scale av_q2d_scale (onGetData_start twice_partial)
       (mkLoop (Some p) false true st) /\
     loop_cond (loop_body sws_scale av_q2d_scale p st) = false).
Proof.
  assert (Hq : m_packetList exhausted = []) by reflexivity.
  assert (Hr : reaches sws_scale av_q2d_scale (onGetData_start failing)
                 (mkLoop (Some pkt1) false true (snd (popEncodedData failing))))
    by apply reaches_here.
  assert (Hl : decodedLength
                 (avcodec_decode_video2
                    (m_codecCtx (snd (popEncodedData failing))) pkt1) <= 0)
    by (cbn; lia).
  assert (Hne : m_packetList twice_partial <> []) by discriminate.
  destruct (onGetData_false_iff_last_decode_failed sws_scale av_q2d_scale exhausted)
    as (_ & _ & _ & Hempty & _).
  destruct (onGetData_false_iff_last_decode_failed sws_scale av_q2d_scale failing)
    as (_ & [_ Hfail] & _).
  destruct (onGetData_false_iff_last_decode_failed sws_scale av_q2d_scale twice_partial)
    as (_ & _ & Hlast & _).
  split; [exact Hq|]. split; [exact (Hempty Hq)|].
  split; [exact Hr|]. split; [exact Hl|].
  split; [exact (Hfail (ex_intro _ pkt1 (ex_intro _ _ (conj Hr Hl))))|].
  split; [exact Hne | exact (Hlast Hne)].
Defined.

Lemma timestamp_changes_only_on_picture_witness :
  existsb is_picture
    (events_since twice_partial (snd (onGetData' twice_partial))) = false /\
  m_lastDecodedTimestamp (snd (onGetData' twice_partial)) =
    m_lastDecodedTimestamp twice_partial /\
  m_packetList exhausted = [] /\
  m_lastDecodedTimestamp (preload' exhausted) = m_lastDecodedTimestamp exhausted.
Proof.
  assert (Hno : existsb is_picture
                  (events_since twice_partial (snd (onGetData' twice_partial)))
                = false)
    by (rewrite twice_partial_events; reflexivity).
  assert (Hq : m_packetList exhausted = []) by reflexivity.
  destruct (timestamp_changes_only_on_picture sws_scale av_q2d_scale twice_partial)
    as (Hcall & _ & _).
  destruct (timestamp_changes_only_on_picture sws_scale av_q2d_scale exhausted)
    as (_ & _ & Hpre).
  split; [exact Hno|]. split; [exact (Hcall Hno)|].
  split; [exact Hq|]. exact (Hpre Hq).
Defined.

(** Three pictures at 25 frames a second: 0 ms, 40 ms and 80 ms. *)
Definition film : VideoStream codec :=
  init [(10, 1, mkFrame 0 [0]); (10, 1, mkFrame 1 [1]); (10, 1, mkFrame 2 [2])]
    [pkt1; pkt2; mkPacket 3 300 10] 0.

(** The clock stands 45 ms after the picture last decoded. *)
Definition late : VideoStream codec :=
  set_timer (Timer.mk Timer.Playing 45000) (preload' film).

(** The clock has not moved since the preload. *)
Definition on_time : VideoStream codec :=
  set_timer (Timer.mk Timer.Playing 0) (preload' film).

(** The picture of 40 ms has been decoded; the clock stands at 85 ms. *)
Definition late_again : VideoStream codec :=
  set_timer (Timer.mk Timer.Playing 85000) (updateTexture' late).

(** The picture of 40 ms has been decoded; the clock stands at 40 ms. *)
Definition caught_up : VideoStream codec :=
  set_timer (Timer.mk Timer.Playing 40000) (updateTexture' late).

Lemma updateTexture_attempts_iff_late_witness :
  m_lastDecodedTimestamp late_again = 40000 /\
  int64_range (m_lastDecodedTimestamp late_again
               - Timer.offset (m_timer late_again)) /\
  m_lastDecodedTimestamp late_again - Timer.offset (m_timer late_again) < 0 /\
  attempts late_again (updateTexture' late_again) /\
  updateTexture' late_again = snd (onGetData' late_again) /\
  getSynchronizationGap caught_up = 0 /\
  updateTexture' caught_up = caught_up /\
  (exists evs,
     events_since late_again (snd (onGetData' late_again)) =
       EvPop (Some (mkPacket 3 300 10))
       :: EvDecode (mkPacket 3 300 10) 10 1 :: evs).
Proof.
  assert (Hts : m_lastDecodedTimestamp late_again = 40000)
    by (vm_compute; reflexivity).
  assert (Hd : m_lastDecodedTimestamp late_again
               - Timer.offset (m_timer late_again) = -45000)
    by (vm_compute; reflexivity).
  assert (Hr : int64_range (m_lastDecodedTimestamp late_again
                            - Timer.offset (m_timer late_again)))
    by (rewrite Hd; unfold int64_range; lia).
  assert (Hneg : m_lastDecodedTimestamp late_again
                 - Timer.offset (m_timer late_again) < 0)
    by (rewrite Hd; lia).
  assert (Hgl : getSynchronizationGap late_again < 0)
    by (vm_compute; reflexivity).
  assert (Hz : getSynchronizationGap caught_up = 0)
    by (vm_compute; reflexivity).
  assert (Hge : 0 <= getSynchronizationGap caught_up)
    by (rewrite Hz; lia).
  assert (Hq : m_packetList late_again = [mkPacket 3 300 10])
    by (vm_compute; reflexivity).
  destruct (updateTexture_attempts_iff_late sws_scale av_q2d_scale late_again)
    as (_ & Hiff & _ & Hcall & _ & _ & _ & Hfirst).
  destruct (updateTexture_attempts_iff_late sws_scale av_q2d_scale caught_up)
    as (_ & _ & _ & _ & Hidle & _).
  destruct (Hfirst _ _ Hq) as [evs Hevs].
  assert (Hctx : avcodec_decode_video2 (m_codecCtx late_again) (mkPacket 3 300 10)
                 = mkResult 10 1 (mkFrame 2 [2]) [])
    by (vm_compute; reflexivity).
  rewrite Hctx in Hevs.
  split; [exact Hts|]. split; [exact Hr|]. split; [exact Hneg|].
  split; [exact (proj2 (Hiff Hr) Hneg)|]. split; [exact (Hcall Hgl)|].
  split; [exact Hz|]. split; [exact (Hidle Hge)|].
  exists evs. exact Hevs.
Defined.

(** The return value is the same whether a frame was produced or the
    packets ran out after decodes that succeeded without a picture. *)
Example true_with_and_without_frame :
  fst (onGetData' film) = true /\
  m_texture (snd (onGetData' film)) = [0] /\
  fst (onGetData' twice_partial) = true /\
  m_texture (snd (onGetData' twice_partial)) = m_texture twice_partial.
Proof. vm_compute. repeat split; reflexivity. Qed.

(** The scenario of section 8 of the specification: the preload shows
    the picture of 0 ms; a tick before the clock moves pulls nothing; at
    45 ms the gap is -45 ms and the tick decodes the picture of 40 ms. *)
Example film_at_25_frames_per_second :
  m_lastDecodedTimestamp (preload' film) = Time.milliseconds 0 /\
  getSynchronizationGap on_time = 0 /\
  updateTexture' on_time = on_time /\
  getSynchronizationGap late = Time.milliseconds (-45) /\
  m_lastDecodedTimestamp (updateTexture' late) = Time.milliseconds 40 /\
  m_texture (updateTexture' late) = [1].
Proof. vm_compute. repeat split; reflexivity. Qed.

End ScriptedRuns.

(** ** Runs with the delayed codec *)
Module DelayedRuns.
Import Delayed.

Lemma delayed_flush_discards : flush_discards (codec := codec).
Proof. intros c p. reflexivity. Qed.

Definition playing : VideoStream codec :=
  init [ScriptedRuns.pkt1; ScriptedRuns.pkt2; mkPacket 3 300 10] 0.

Definition until_stop : list call :=
  [CallWillPlay (Timer.mk Timer.Stopped 0);
   TimerChanges (Timer.mk Timer.Playing 45000);
   CallUpdateTexture].

(** Before the stop the codec holds the packet last submitted. *)
Example buffered_before_stop :
  m_codecCtx (run Scripted.sws_scale Scripted.av_q2d_scale until_stop playing) =
    Some ScriptedRuns.pkt2.
Proof. vm_compute. reflexivity. Qed.

Lemma didStop_flushes_witness :
  flush_discards (codec := codec) /\
  m_codecCtx
    (didStop (Timer.mk Timer.Playing 45000) Timer.Playing
       (run Scripted.sws_scale Scripted.av_q2d_scale until_stop playing)) =
    None /\
  m_packetList playing =
    [ScriptedRuns.pkt1; ScriptedRuns.pkt2; mkPacket 3 300 10] /\
  (exists evs,
     events_since
       (didStop (Timer.mk Timer.Playing 45000) Timer.Playing playing)
       (willPlay Scripted.sws_scale Scripted.av_q2d_scale
          (Timer.mk Timer.Stopped 0)
          (didStop (Timer.mk Timer.Playing 45000) Timer.Playing playing)) =
       EvPop (Some ScriptedRuns.pkt1)
       :: EvDecode ScriptedRuns.pkt1 10 0 :: evs).
Proof.
  assert (Hq : m_packetList playing =
               [ScriptedRuns.pkt1; ScriptedRuns.pkt2; mkPacket 3 300 10])
    by reflexivity.
  destruct (didStop_flushes Scripted.sws_scale Scripted.av_q2d_scale
              (Timer.mk Timer.Playing 45000) Timer.Playing playing)
    as (_ & _ & _ & Hrun & Hreplay).
  split; [exact delayed_flush_discards|].
  split; [exact (Hrun delayed_flush_discards until_stop)|].
  split; [exact Hq|].
  exact (Hreplay (Timer.mk Timer.Stopped 0) _ _ Hq).
Defined.

End DelayedRuns.

(** * Stop and replay *)

(** The packet object [r] was handed to the primitive in [evs]. *)
Definition submitted (r : nat) (evs : list event) : bool :=
  existsb (fun e => match e with
                    | EvDecode p _ _ => same_object r p
                    | _ => false
                    end) evs.

(** No decode that follows a flush and gives a picture is the decode of
    a packet handed to the primitive before that flush. *)
Definition nothing_carried_over (evs : list event) : Prop :=
  forall before after p len got,
    evs = before ++ EvFlush :: after ->
    In (EvDecode p len got) after ->
    got <> 0 ->
    submitted (pkt_ref p) before = false.

(** ** A codec that takes five bytes at a time

    A third test double, without any state: a decode takes the first
    five bytes of the packet, or all of it if it is shorter, and makes a
    picture of them. *)
Module Halving.

Definition codec := unit.

#[export] Instance primitive : CodecPrimitive codec := {
  avcodec_decode_video2 _ p :=
    mkResult (Z.min 5 (size p)) 1 (mkFrame (data p) [data p]) tt;
  avcodec_flush_buffers _ := tt
}.

End Halving.

Module HalvingRuns.
Import Halving.

Lemma halving_flush_discards : flush_discards (codec := codec).
Proof. intros c p. reflexivity. Qed.

(** One packet of ten bytes, shown once, then stop and play again. *)
Definition shown_once : VideoStream codec :=
  preload Scripted.sws_scale Scripted.av_q2d_scale
    (mkVideoStream Scripted.stream tt [ScriptedRuns.pkt1]
       (Timer.mk Timer.Stopped 0) [] Scripted.blank [] Time.Zero []).

Definition stopped : VideoStream codec :=
  didStop (Timer.mk Timer.Playing 45000) Timer.Playing shown_once.

Definition replayed : VideoStream codec :=
  willPlay Scripted.sws_scale Scripted.av_q2d_scale
    (Timer.mk Timer.Stopped 0) stopped.

Example replayed_history :
  history replayed =
    [EvPop (Some ScriptedRuns.pkt1); EvDecode ScriptedRuns.pkt1 5 1;
     EvPresent [100]; EvPrepend (mkPacket 1 105 5)]
    ++ EvFlush
    :: [EvPop (Some (mkPacket 1 105 5)); EvDecode (mkPacket 1 105 5) 5 1;
        EvPresent [105]; EvFree (mkPacket 1 105 5)].
Proof. vm_compute. reflexivity. Qed.

(** C7, as stated, fails, and with a codec whose flush keeps nothing:
    the stop leaves the rest of packet 1 at the head of the queue, and
    the first picture of the replay is decoded from that packet, handed
    to the primitive before the stop. *)
Lemma picture_after_stop_from_packet_submitted_before :
  flush_discards (codec := codec) /\
  m_packetList stopped = [mkPacket 1 105 5] /\
  m_texture replayed = [105] /\
  ~ nothing_carried_over (history replayed).
Proof.
  split; [exact halving_flush_discards|].
  split; [vm_compute; reflexivity|].
  split; [vm_compute; reflexivity|].
  intros Hc.
  assert (Hin : In (EvDecode (mkPacket 1 105 5) 5 1)
                  [EvPop (Some (mkPacket 1 105 5));
                   EvDecode (mkPacket 1 105 5) 5 1;
                   EvPresent [105]; EvFree (mkPacket 1 105 5)])
    by (right; left; reflexivity).
  assert (Hgot : 1 <> 0) by discriminate.
  pose proof (Hc _ _ _ _ _ replayed_history Hin Hgot) as Hsub.
  vm_compute in Hsub. discriminate.
Qed.

End HalvingRuns.

(** * Runs at 49 ticks a second *)
Module TimestampRuns.
Import Scripted.

(** One picture, of timestamp 49 in a time base of 1/49: one second. *)
Definition one_second : VideoStream codec :=
  mkVideoStream (mkStream AV_NOPTS_VALUE (mkRational 1 49))
    [(10, 1, mkFrame 49 [7])] [ScriptedRuns.pkt1]
    (Timer.mk Timer.Stopped 0) [] blank [] Time.Zero [].

Example one_second_stored :
  m_lastDecodedTimestamp (snd (onGetData sws_scale av_q2d_scale one_second))
  = 999000.
Proof. vm_compute. reflexivity. Qed.

(** C6, as stated, fails: 1000 * (49 - 0) * 1/49 is 1000 ms, and the
    timestamp stored is 999 ms, the double 1/49.0 being a little less
    than 1/49 and the product being cut to its integer part. *)
Lemma stored_one_millisecond_short :
  1000 * 49 = 1000 * (49 - 0) * 1 /\
  ~ stores_claimed_timestamp
      (m_lastDecodedTimestamp (snd (onGetData sws_scale av_q2d_scale one_second)))
      49 0 (mkRational 1 49).
Proof.
  split; [reflexivity|].
  rewrite one_second_stored. intros (ms & Hms & Hst). cbn in Hms. lia.
Qed.

Lemma timestamp_is_truncated_double_product_witness :
  reaches sws_scale Double.scale (onGetData_start one_second)
    (mkLoop (Some ScriptedRuns.pkt1) false true (snd (popEncodedData one_second))) /\
  0 < decodedLength
        (avcodec_decode_video2 (m_codecCtx (snd (popEncodedData one_second)))
           ScriptedRuns.pkt1) /\
  gotPicture
    (avcodec_decode_video2 (m_codecCtx (snd (popEncodedData one_second)))
       ScriptedRuns.pkt1) <> 0 /\
  m_lastDecodedTimestamp (snd (onGetData sws_scale Double.scale one_second)) =
    wrap32 (Double.to_int64
              (Double.mul (Double.of_int 49000)
                 (Double.div (Double.of_int 1) (Double.of_int 49)))) * 1000.
Proof.
  assert (Hr : reaches sws_scale Double.scale (onGetData_start one_second)
                 (mkLoop (Some ScriptedRuns.pkt1) false true
                    (snd (popEncodedData one_second))))
    by apply reaches_here.
  assert (Hl : 0 < decodedLength
                     (avcodec_decode_video2
                        (m_codecCtx (snd (popEncodedData one_second)))
                        ScriptedRuns.pkt1))
    by (cbn; lia).
  assert (Hg : gotPicture
                 (avcodec_decode_video2
                    (m_codecCtx (snd (popEncodedData one_second)))
                    ScriptedRuns.pkt1) <> 0)
    by (cbn; lia).
  destruct (timestamp_is_truncated_double_product sws_scale one_second
              ScriptedRuns.pkt1 (snd (popEncodedData one_second)) Hr Hl Hg)
    as [_ Hstored].
  split; [exact Hr|]. split; [exact Hl|]. split; [exact Hg|].
  exact Hstored.
Defined.

End TimestampRuns.

(** * Construction and destruction

    The native blocks the object owns: the raw frame, the RGBA buffer and
    the rescaling context.  The natives that hand them out are outside
    the program; what they answer in one run is given beforehand. *)

From Stdlib Require String.

Module Lifetime.
Import String.

(** A native block, by the kind of allocator it came from. *)
Inductive native :=
| Frame (a : nat)
| Buffer (a : nat)
| Context (a : nat).

Definition native_eqb (x y : native) : bool :=
  match x, y with
  | Frame a, Frame b | Buffer a, Buffer b | Context a, Context b => Nat.eqb a b
  | _, _ => false
  end.

(** The calls made to the natives. *)
Inductive native_call :=
| AvFrameAlloc
| AvImageAlloc
| TextureCreate
| SwsGetCachedContext
| AvFrameFree (a : nat)
| AvFreep (a : nat)
| SwsFreeContext (a : nat).

(** What the natives answer: [av_frame_alloc] a frame or [NULL];
    [av_image_alloc] its return value, and the buffer it allocates when
    that value is not negative; [sf::Texture::create] a boolean;
    [sws_getCachedContext] a context or [NULL]. *)
Record natives := mkNatives {
  av_frame_alloc : option nat;
  av_image_alloc : Z;
  av_image_buffer : nat;
  texture_create : bool;
  sws_getCachedContext : option nat
}.

(** The blocks that are allocated, and the calls made so far. *)
Record heap := mkHeap {
  live : list native;
  calls : list native_call
}.

(** How a member function ends when it does not return: a [CHECK] that
    threw, or the release of a block that is not allocated. *)
Inductive failure :=
| Thrown (message : string)
| InvalidFree (block : native).

Definition M (A : Type) : Type := heap -> (failure + A) * heap.

Definition ret {A : Type} (a : A) : M A := fun h => (inr a, h).

Definition bind {A B : Type} (m : M A) (k : A -> M B) : M B :=
  fun h =>
    match m h with
    | (inl e, h') => (inl e, h')
    | (inr a, h') => k a h'
    end.

Notation "x <- m ;; k" := (bind m (fun x => k))
  (at level 61, m at next level, right associativity).
Notation "m ;;; k" := (bind m (fun _ => k))
  (at level 61, right associativity).

(** Modelled from the spec: the macro [CHECK] of Utilities.hpp is not
    part of VideoStream.cpp.  Section 7: a failed check at construction
    is fatal, construction must not complete and an initialization error
    is signalled. *)
Definition CHECK (value : bool) (message : string) : M unit :=
  fun h => if value then (inr tt, h) else (inl (Thrown message), h).

Definition called (c : native_call) : M unit :=
  fun h => (inr tt, mkHeap (live h) (calls h ++ [c])).

Definition allocated (b : native) : M unit :=
  fun h => (inr tt, mkHeap (b :: live h) (calls h)).

Fixpoint remove_first (b : native) (l : list native) : option (list native) :=
  match l with
  | [] => None
  | x :: l =>
      if native_eqb b x then Some l
      else option_map (cons x) (remove_first b l)
  end.

Definition released (b : native) : M unit :=
  fun h =>
    match remove_first b (live h) with
    | Some l => (inr tt, mkHeap l (calls h))
    | None => (inl (InvalidFree b), h)
    end.

(** The pointers among the members; [None] is [NULL]. *)
Record pointers := mkPointers {
  rawVideoFrame : option nat;
  rgbaVideoBuffer0 : option nat;
  swsCtx : option nat
}.

Definition is_some {A : Type} (o : option A) : bool :=
  match o with
  | Some _ => true
  | None => false
  end.

(** [initRescaler], lines 167-174; [m] holds the two pointers set
    before it is called. *)
Definition initRescaler (n : natives) (m : pointers) : M pointers :=
  called SwsGetCachedContext ;;;
  match sws_getCachedContext n with
  | Some c => allocated (Context c)
  | None => ret tt
  end ;;;
  CHECK (is_some (sws_getCachedContext n))
    "VideoStream::initRescaler() - sws_getContext() error" ;;;
  ret (mkPointers (rawVideoFrame m) (rgbaVideoBuffer0 m) (sws_getCachedContext n)).

(** The constructor, lines 45-65, after the base class and the member
    initialisers. *)
Definition construct (n : natives) : M pointers :=
  called AvFrameAlloc ;;;
  match av_frame_alloc n with
  | Some f => allocated (Frame f)
  | None => ret tt
  end ;;;
  CHECK (is_some (av_frame_alloc n)) "VideoStream() - out of memory" ;;;
  called AvImageAlloc ;;;
  (if 0 <=? av_image_alloc n then allocated (Buffer (av_image_buffer n)) else ret tt) ;;;
  CHECK (0 <=? av_image_alloc n) "VideoStream() - av_image_alloc() error" ;;;
  called TextureCreate ;;;
  CHECK (texture_create n) "VideoStream() - sf::Texture::create() error" ;;;
  initRescaler n
    (mkPointers (av_frame_alloc n)
       (if 0 <=? av_image_alloc n then Some (av_image_buffer n) else None)
       None).

(** The destructor, lines 68-81. *)
Definition destruct_object (m : pointers) : M unit :=
  match rawVideoFrame m with
  | Some f => called (AvFrameFree f) ;;; released (Frame f)
  | None => ret tt
  end ;;;
  match rgbaVideoBuffer0 m with
  | Some b => called (AvFreep b) ;;; released (Buffer b)
  | None => ret tt
  end ;;;
  match swsCtx m with
  | Some c => called (SwsFreeContext c) ;;; released (Context c)
  | None => ret tt
  end.

(** All four natives do their part. *)
Definition natives_succeed (n : natives) : bool :=
  is_some (av_frame_alloc n) && (0 <=? av_image_alloc n) &&
  texture_create n && is_some (sws_getCachedContext n).

(** X8: the constructor completes exactly when [av_frame_alloc],
    [av_image_alloc], [sf::Texture::create] and [sws_getCachedContext]
    all succeed, and then none of the three pointers is null.  It goes
    through them in that order and stops at the first that fails, with
    the message of that check, without calling the natives that come
    after; the blocks allocated before the failure stay allocated. *)
Theorem construct_stops_at_first_failure (n : natives) (h : heap) :
  (natives_succeed n = true <->
   exists m, fst (construct n h) = inr m) /\
  (forall m, fst (construct n h) = inr m ->
     is_some (rawVideoFrame m) && is_some (rgbaVideoBuffer0 m)
       && is_some (swsCtx m) = true /\
     calls (snd (construct n h)) =
       calls h ++ [AvFrameAlloc; AvImageAlloc; TextureCreate; SwsGetCachedContext]) /\
  (av_frame_alloc n = None ->
     fst (construct n h) = inl (Thrown "VideoStream() - out of memory") /\
     calls (snd (construct n h)) = calls h ++ [AvFrameAlloc] /\
     live (snd (construct n h)) = live h) /\
  (forall f, av_frame_alloc n = Some f -> av_image_alloc n < 0 ->
     fst (construct n h) = inl (Thrown "VideoStream() - av_image_alloc() error") /\
     calls (snd (construct n h)) = calls h ++ [AvFrameAlloc; AvImageAlloc] /\
     live (snd (construct n h)) = Frame f :: live h) /\
  (forall f, av_frame_alloc n = Some f -> 0 <= av_image_alloc n ->
     texture_create n = false ->
     fst (construct n h) = inl (Thrown "VideoStream() - sf::Texture::create() error") /\
     calls (snd (construct n h)) =
       calls h ++ [AvFrameAlloc; AvImageAlloc; TextureCreate] /\
     live (snd (construct n h)) =
       Buffer (av_image_buffer n) :: Frame f :: live h) /\
  (forall f, av_frame_alloc n = Some f -> 0 <= av_image_alloc n ->
     texture_create n = true -> sws_getCachedContext n = None ->
     fst (construct n h) =
       inl (Thrown "VideoStream::initRescaler() - sws_getContext() error") /\
     calls (snd (construct n h)) =
       calls h ++ [AvFrameAlloc; AvImageAlloc; TextureCreate; SwsGetCachedContext] /\
     live (snd (construct n h)) =
       Buffer (av_image_buffer n) :: Frame f :: live h).
Proof.
  unfold natives_succeed, construct, initRescaler, bind, CHECK, called, allocated, ret.
  destruct n as [[f|] err buf tex [c|]]; cbn;
    destruct (0 <=? err) eqn:Herr; cbn;
    destruct tex; cbn;
    rewrite <- ?app_assoc; cbn;
    repeat match goal with
      | |- _ /\ _ => split
      | |- _ <-> _ => split
      | |- forall _, _ => intro
      end;
    try discriminate; try congruence; eauto;
    try (apply Z.leb_gt in Herr; lia);
    try (apply Z.leb_le in Herr; lia);
    try match goal with
      | Hm : inr _ = inr _ |- _ => inversion Hm; subst; reflexivity
      | Hx : exists _, inl _ = inr _ |- _ => destruct Hx; discriminate
      end.
Qed.

(** X9: a destructor run on the object a completed constructor made
    releases the three blocks the constructor allocated, each once and in
    the order frame, buffer, context; it releases nothing that is not
    allocated, and the allocated blocks are then those of before the
    construction. *)
Theorem construct_then_destruct (n : natives) (h : heap) (m : pointers) :
  fst (construct n h) = inr m ->
  exists f b c,
    m = mkPointers (Some f) (Some b) (Some c) /\
    live (snd (construct n h)) = Context c :: Buffer b :: Frame f :: live h /\
    fst (destruct_object m (snd (construct n h))) = inr tt /\
    live (snd (destruct_object m (snd (construct n h)))) = live h /\
    calls (snd (destruct_object m (snd (construct n h)))) =
      calls (snd (construct n h)) ++ [AvFrameFree f; AvFreep b; SwsFreeContext c].
Proof.
  unfold construct, initRescaler, destruct_object, bind, CHECK, called,
    allocated, released, ret.
  destruct n as [[f|] err buf tex [c|]]; cbn;
    destruct (0 <=? err) eqn:Herr; cbn;
    destruct tex; cbn; intros Hm; try discriminate.
  inversion Hm; subst. exists f, buf, c. cbn.
  repeat (rewrite Nat.eqb_refl; cbn).
  rewrite <- ?app_assoc. cbn. repeat split.
Qed.

End Lifetime.

(** ** Further runs with the scripted codec *)
Module FurtherRuns.
Import Scripted ScriptedRuns.

Local Abbreviation onGetData' := (onGetData sws_scale av_q2d_scale) (only parsing).
Local Abbreviation updateTexture' := (updateTexture sws_scale av_q2d_scale) (only parsing).

Lemma decodePacket_cursor_witness :
  needsMoreDecoding (fst (decodePacket av_q2d_scale pkt1 partial)) = true /\
  data pkt1 < data (packet_after (fst (decodePacket av_q2d_scale pkt1 partial))) /\
  0 < size (packet_after (fst (decodePacket av_q2d_scale pkt1 partial))) < size pkt1 /\
  needsMoreDecoding (fst (decodePacket av_q2d_scale pkt1 failing)) = false /\
  packet_after (fst (decodePacket av_q2d_scale pkt1 failing)) = pkt1.
Proof.
  assert (Hmore : needsMoreDecoding (fst (decodePacket av_q2d_scale pkt1 partial))
                  = true) by reflexivity.
  assert (Hnot : needsMoreDecoding (fst (decodePacket av_q2d_scale pkt1 failing))
                 = false) by reflexivity.
  destruct (decodePacket_cursor av_q2d_scale pkt1 partial) as (_ & _ & Hm & _).
  destruct (decodePacket_cursor av_q2d_scale pkt1 failing) as (_ & _ & _ & Hs).
  split; [exact Hmore|]. split; [exact (proj1 (Hm Hmore))|].
  split; [exact (proj2 (Hm Hmore))|]. split; [exact Hnot | exact (Hs Hnot)].
Defined.

Lemma onGetData_presents_at_most_once_witness :
  presents (events_since film (snd (onGetData' film))) = 1%nat /\
  m_texture (snd (onGetData' film)) =
    sws_scale (m_rawVideoFrame (snd (onGetData' film))) /\
  presents (events_since twice_partial (snd (onGetData' twice_partial))) = 0%nat /\
  m_texture (snd (onGetData' twice_partial)) = m_texture twice_partial.
Proof.
  assert (Hone : presents (events_since film (snd (onGetData' film))) = 1%nat)
    by (vm_compute; reflexivity).
  assert (Hnone : presents (events_since twice_partial
                              (snd (onGetData' twice_partial))) = 0%nat)
    by (vm_compute; reflexivity).
  destruct (onGetData_presents_at_most_once sws_scale av_q2d_scale film)
    as (_ & Hshown & _).
  destruct (onGetData_presents_at_most_once sws_scale av_q2d_scale twice_partial)
    as (_ & _ & Hkept).
  split; [exact Hone|]. split; [exact (proj1 (Hshown Hone))|].
  split; [exact Hnone | exact (proj1 (Hkept Hnone))].
Defined.

Lemma true_without_frame_means_exhausted_witness :
  fst (onGetData' twice_partial) = true /\
  presents (events_since twice_partial (snd (onGetData' twice_partial))) = 0%nat /\
  m_packetList (snd (onGetData' twice_partial)) = [].
Proof.
  assert (Htrue : fst (onGetData' twice_partial) = true)
    by (vm_compute; reflexivity).
  assert (Hnone : presents (events_since twice_partial
                              (snd (onGetData' twice_partial))) = 0%nat)
    by (vm_compute; reflexivity).
  split; [exact Htrue|]. split; [exact Hnone|].
  exact (true_without_frame_means_exhausted sws_scale av_q2d_scale
           twice_partial Htrue Hnone).
Defined.

Lemma picture_ends_call_witness :
  reaches sws_scale av_q2d_scale (onGetData_start film)
    (mkLoop (Some pkt1) false true (snd (popEncodedData film))) /\
  0 < decodedLength
        (avcodec_decode_video2 (m_codecCtx (snd (popEncodedData film))) pkt1) /\
  gotPicture
    (avcodec_decode_video2 (m_codecCtx (snd (popEncodedData film))) pkt1) <> 0 /\
  fst (onGetData' film) = true /\
  m_texture (snd (onGetData' film)) =
    sws_scale
      (picture
         (avcodec_decode_video2 (m_codecCtx (snd (popEncodedData film))) pkt1)).
Proof.
  assert (Hr : reaches sws_scale av_q2d_scale (onGetData_start film)
                 (mkLoop (Some pkt1) false true (snd (popEncodedData film))))
    by apply reaches_here.
  assert (Hl : 0 < decodedLength
                     (avcodec_decode_video2
                        (m_codecCtx (snd (popEncodedData film))) pkt1))
    by (cbn; lia).
  assert (Hg : gotPicture
                 (avcodec_decode_video2
                    (m_codecCtx (snd (popEncodedData film))) pkt1) <> 0)
    by (cbn; lia).
  destruct (picture_ends_call sws_scale av_q2d_scale film pkt1
              (snd (popEncodedData film)) Hr Hl Hg)
    as (Hret & _ & Htex & _).
  split; [exact Hr|]. split; [exact Hl|]. split; [exact Hg|].
  split; [exact Hret | exact Htex].
Defined.

(** A stream 45 ms late whose only packet gives no picture. *)
Definition late_without_picture : VideoStream codec :=
  set_timer (Timer.mk Timer.Playing 45000) twice_partial.

Lemma late_without_picture_retries_witness :
  getSynchronizationGap late_without_picture < 0 /\
  existsb is_picture
    (events_since late_without_picture (updateTexture' late_without_picture))
  = false /\
  getSynchronizationGap
    (set_timer (Timer.mk Timer.Playing 50000)
       (updateTexture' late_without_picture)) = -50000 /\
  updateTexture'
    (set_timer (Timer.mk Timer.Playing 50000)
       (updateTexture' late_without_picture)) =
  snd (onGetData'
         (set_timer (Timer.mk Timer.Playing 50000)
            (updateTexture' late_without_picture))).
Proof.
  assert (Hlate : getSynchronizationGap late_without_picture < 0)
    by (vm_compute; reflexivity).
  assert (Hno : existsb is_picture
                  (events_since late_without_picture
                     (updateTexture' late_without_picture)) = false)
    by (vm_compute; reflexivity).
  assert (Hclock : Timer.offset (m_timer late_without_picture)
                   <= Timer.offset (Timer.mk Timer.Playing 50000))
    by (cbn; lia).
  assert (Hr0 : int64_range (m_lastDecodedTimestamp late_without_picture
                             - Timer.offset (m_timer late_without_picture)))
    by (unfold int64_range; cbn; lia).
  assert (Hr1 : int64_range (m_lastDecodedTimestamp late_without_picture
                             - Timer.offset (Timer.mk Timer.Playing 50000)))
    by (unfold int64_range; cbn; lia).
  destruct (late_without_picture_retries sws_scale av_q2d_scale
              late_without_picture (Timer.mk Timer.Playing 50000)
              Hlate Hno Hclock Hr0 Hr1)
    as (Hgap & _ & Hcall).
  split; [exact Hlate|]. split; [exact Hno|].
  split; [exact Hgap | exact Hcall].
Defined.

End FurtherRuns.

(** ** A construction and its destruction *)
Module LifetimeRuns.
Import String.
Import Lifetime.

Definition all_fine : natives := mkNatives (Some 1%nat) 0 2%nat true (Some 3%nat).

Definition no_frame : natives := mkNatives None 0 2%nat true (Some 3%nat).

Definition bad_image : natives := mkNatives (Some 1%nat) (-22) 2%nat true (Some 3%nat).

Definition no_texture : natives := mkNatives (Some 1%nat) 0 2%nat false (Some 3%nat).

Definition no_context : natives := mkNatives (Some 1%nat) 0 2%nat true None.

Definition empty_heap : heap := mkHeap [] [].

Lemma construct_stops_at_first_failure_witness :
  av_frame_alloc no_frame = None /\
  calls (snd (construct no_frame empty_heap)) = [AvFrameAlloc] /\
  av_image_alloc bad_image < 0 /\
  calls (snd (construct bad_image empty_heap)) = [AvFrameAlloc; AvImageAlloc] /\
  texture_create no_texture = false /\
  calls (snd (construct no_texture empty_heap)) =
    [AvFrameAlloc; AvImageAlloc; TextureCreate] /\
  sws_getCachedContext no_context = None /\
  fst (construct no_context empty_heap) =
    inl (Thrown "VideoStream::initRescaler() - sws_getContext() error") /\
  natives_succeed all_fine = true /\
  (exists m, fst (construct all_fine empty_heap) = inr m).
Proof.
  assert (Hf0 : av_frame_alloc no_frame = None) by reflexivity.
  assert (Hi0 : av_image_alloc bad_image < 0) by (cbn; lia).
  assert (Hi1 : av_frame_alloc bad_image = Some 1%nat) by reflexivity.
  assert (Ht0 : texture_create no_texture = false) by reflexivity.
  assert (Ht1 : av_frame_alloc no_texture = Some 1%nat) by reflexivity.
  assert (Ht2 : 0 <= av_image_alloc no_texture) by (cbn; lia).
  assert (Hok0 : natives_succeed all_fine = true) by reflexivity.
  assert (Hc0 : sws_getCachedContext no_context = None) by reflexivity.
  assert (Hc1 : av_frame_alloc no_context = Some 1%nat) by reflexivity.
  assert (Hc2 : 0 <= av_image_alloc no_context) by (cbn; lia).
  assert (Hc3 : texture_create no_context = true) by reflexivity.
  destruct (construct_stops_at_first_failure no_frame empty_heap)
    as (_ & _ & Hf & _).
  destruct (construct_stops_at_first_failure bad_image empty_heap)
    as (_ & _ & _ & Hi & _).
  destruct (construct_stops_at_first_failure no_texture empty_heap)
    as (_ & _ & _ & _ & Ht & _).
  destruct (construct_stops_at_first_failure no_context empty_heap)
    as (_ & _ & _ & _ & _ & Hc).
  destruct (construct_stops_at_first_failure all_fine empty_heap)
    as ([Hok _] & _).
  split; [exact Hf0|]. split; [exact (proj1 (proj2 (Hf Hf0)))|].
  split; [exact Hi0|]. split; [exact (proj1 (proj2 (Hi _ Hi1 Hi0)))|].
  split; [exact Ht0|]. split; [exact (proj1 (proj2 (Ht _ Ht1 Ht2 Ht0)))|].
  split; [exact Hc0|]. split; [exact (proj1 (Hc _ Hc1 Hc2 Hc3 Hc0))|].
  split; [exact Hok0 | exact (Hok Hok0)].
Defined.

Lemma construct_then_destruct_witness :
  fst (construct all_fine empty_heap) = inr (mkPointers (Some 1%nat) (Some 2%nat) (Some 3%nat)) /\
  live (snd (destruct_object (mkPointers (Some 1%nat) (Some 2%nat) (Some 3%nat))
               (snd (construct all_fine empty_heap)))) = [].
Proof.
  assert (Hm : fst (construct all_fine empty_heap) =
               inr (mkPointers (Some 1%nat) (Some 2%nat) (Some 3%nat)))
    by reflexivity.
  destruct (construct_then_destruct all_fine empty_heap _ Hm)
    as (f & b & c & _ & _ & _ & Hlive & _).
  split; [exact Hm | exact Hlive].
Defined.

End LifetimeRuns.
